(** * Phase-2 physical model generators: MySQL DDL and Mermaid ERD

    A shallow embedding of [src/generators/type_mapper.py],
    [src/generators/mysql_generator.py] and [src/erd/physical_erd.py],
    followed by the properties of the translation engine.

    Python strings are sequences of Unicode code points, so a string is a
    list of code points here; the two character-level built-ins the
    generators call ([str.isalnum] and [str.upper]) are an interface, and
    every general theorem holds for any implementation of it. *)

From Stdlib Require Import List String Ascii NArith PeanoNat Bool Lia.
From Stdlib Require Import Decimal DecimalNat DecimalString.
Import ListNotations.

Set Implicit Arguments.
Open Scope N_scope.
Open Scope list_scope.

(** ** Python strings *)

Module PyStr.

(** A character is a Unicode code point. *)
Definition char := N.
Definition str := list char.

(** An ASCII literal of the source, as code points. *)
Definition lit (s : string) : str :=
  List.map N_of_ascii (list_ascii_of_string s).

Definition nl : str := [10].
Definition dquote : str := [34].
Definition underscore : char := 95.

Fixpoint eqb (a b : str) : bool :=
  match a, b with
  | [], [] => true
  | x :: a', y :: b' => (x =? y) && eqb a' b'
  | _, _ => false
  end.

(** [x in l] on a list of strings. *)
Definition mem (x : str) (l : list str) : bool := existsb (eqb x) l.

(** [sep.join(l)] *)
Fixpoint join (sep : str) (l : list str) : str :=
  match l with
  | [] => []
  | [x] => x
  | x :: rest => x ++ sep ++ join sep rest
  end.

(** [s.replace(old, new)] for a one-character [old]. *)
Definition replace (old : char) (new : str) (s : str) : str :=
  flat_map (fun c => if c =? old then new else [c]) s.

(** [f"{n}"] for a non-negative integer. *)
Definition of_nat (n : nat) : str :=
  lit (NilEmpty.string_of_uint (Nat.to_uint n)).

(** Truth value of an [Optional[str]]: [None] and [''] are false. *)
Definition truthy (o : option str) : bool :=
  match o with
  | Some (_ :: _) => true
  | _ => false
  end.

(** The string behind an optional one, as an f-string would read it once
    the truth test has passed. *)
Definition get (o : option str) : str :=
  match o with
  | Some s => s
  | None => []
  end.

(** [enumerate(l, start)] *)
Fixpoint enumerate (A : Type) (start : nat) (l : list A) : list (nat * A) :=
  match l with
  | [] => []
  | x :: rest => (start, x) :: enumerate (S start) rest
  end.

(** [d.get(key, default)] on a dict literal, as its item list. *)
Fixpoint dict_get (d : list (str * str)) (key : str) (default : str) : str :=
  match d with
  | [] => default
  | (k, v) :: rest => if eqb key k then v else dict_get rest key default
  end.

(** [key in d] *)
Definition dict_has (d : list (str * str)) (key : str) : bool :=
  mem key (List.map fst d).

End PyStr.
Import PyStr.

(** The character-level built-ins of [str] the generators rely on. *)
Class Unicode := {
  (** [c.isalnum()] on a one-character string *)
  isalnum : char -> bool;
  (** [c.upper()] on a one-character string; it may be longer than one
      character (full case mapping) *)
  upper_char : char -> str
}.

(** [s.upper()]: the full upper-case mapping, character by character. *)
Definition upper `{Unicode} (s : str) : str := flat_map upper_char s.

(** An excerpt of CPython's character database: exact on U+0000..U+007F
    and on the four code points listed (U+00DF, U+0131, U+01F0, U+030C).
    Other code points are outside the excerpt; nothing below evaluates the
    tables there. *)
Module CPython.

Definition ascii_isalnum (c : char) : bool :=
  ((48 <=? c) && (c <=? 57)) || ((65 <=? c) && (c <=? 90))
  || ((97 <=? c) && (c <=? 122)).

Definition isalnum (c : char) : bool :=
  ascii_isalnum c
  || (c =? 223)   (* U+00DF LATIN SMALL LETTER SHARP S: Ll *)
  || (c =? 305)   (* U+0131 LATIN SMALL LETTER DOTLESS I: Ll *)
  || (c =? 496).  (* U+01F0 LATIN SMALL LETTER J WITH CARON: Ll *)
                  (* U+030C COMBINING CARON is Mn: not alphanumeric *)

Definition upper_char (c : char) : str :=
  if (97 <=? c) && (c <=? 122) then [c - 32]
  else if c =? 223 then [83; 83]        (* U+00DF -> SS *)
  else if c =? 305 then [73]            (* U+0131 -> I *)
  else if c =? 496 then [74; 780]       (* U+01F0 -> J, U+030C *)
  else [c].

Definition unicode : Unicode :=
  Build_Unicode isalnum upper_char.

End CPython.

(** ** Schema model ([src/models/metadata.py]) *)

Module Column.
(** Modelled from the spec: the [Column] dataclass of
    [src/models/metadata.py], with the fields [load_metadata] in
    [src/main.py] passes to it. *)
Record t := mk {
  name : str;
  data_type : str;
  is_primary_key : bool;
  is_foreign_key : bool;
  is_nullable : bool;
  is_unique : bool;
  default_value : option str;
  references_table : option str;
  references_column : option str;
  description : option str
}.
End Column.

Module Table.
Record t := mk {
  name : str;
  columns : list Column.t;
  description : option str
}.

(** Modelled from the spec: the derived view [Table.primary_keys] of
    [src/models/metadata.py], the columns with [is_primary_key] true in
    column order. *)
Definition primary_keys (table : t) : list Column.t :=
  filter Column.is_primary_key (columns table).

(** Modelled from the spec: the derived view [Table.foreign_keys] of
    [src/models/metadata.py], the columns with [is_foreign_key] true in
    column order. *)
Definition foreign_keys (table : t) : list Column.t :=
  filter Column.is_foreign_key (columns table).
End Table.

Module Metadata.
(** [tables] is a dict from table name to [Table]; its items are kept in
    insertion order, which is the order [.items()] iterates in. *)
Record t := mk {
  file_id : str;
  tables : list (str * Table.t)
}.
End Metadata.

(** ** [src/generators/type_mapper.py] *)

Module TypeMapper.

Definition MYSQL_TYPE_MAP : list (str * str) :=
  [ (lit "INTEGER", lit "INT");
    (lit "INT", lit "INT");
    (lit "BIGINT", lit "BIGINT");
    (lit "SMALLINT", lit "SMALLINT");
    (lit "VARCHAR", lit "VARCHAR(255)");
    (lit "TEXT", lit "TEXT");
    (lit "CHAR", lit "CHAR");
    (lit "BOOLEAN", lit "BOOLEAN");
    (lit "BOOL", lit "BOOLEAN");
    (lit "DATE", lit "DATE");
    (lit "TIMESTAMP", lit "TIMESTAMP");
    (lit "DATETIME", lit "DATETIME");
    (lit "DECIMAL", lit "DECIMAL(18,2)");
    (lit "NUMERIC", lit "DECIMAL(18,2)");
    (lit "FLOAT", lit "FLOAT");
    (lit "DOUBLE", lit "DOUBLE");
    (lit "JSON", lit "JSON") ].

Definition map_to_mysql_type `{Unicode} (generic_type : str) : str :=
  dict_get MYSQL_TYPE_MAP (upper generic_type) (lit "VARCHAR(255)").

End TypeMapper.

(** The literal [['INTEGER', 'INT', 'BIGINT']] both generators test the
    upper-cased abstract type against. *)
Definition AUTO_INCREMENT_TYPES : list str :=
  [lit "INTEGER"; lit "INT"; lit "BIGINT"].

(** ** [src/generators/mysql_generator.py] *)

Module MySQLGenerator.
Section WithUnicode.
Context {U : Unicode}.

(** Modelled from the spec: [SQLGenerator._sanitize_name] of
    [src/generators/base.py]; every character that is not alphanumeric
    or underscore becomes an underscore, case is preserved. *)
Definition _sanitize_name (name : str) : str :=
  List.map (fun c => if isalnum c || (c =? underscore) then c else underscore)
           name.

Definition map_type (generic_type : str) : str :=
  TypeMapper.map_to_mysql_type generic_type.

(** The local [parts] of [_generate_column_definition] when it is
    joined. *)
Definition _column_definition_parts (column : Column.t) : list str :=
  let parts := [ _sanitize_name (Column.name column);
                 map_type (Column.data_type column) ] in
  let parts :=
    if Column.is_primary_key column
       && mem (upper (Column.data_type column)) AUTO_INCREMENT_TYPES
    then parts ++ [lit "AUTO_INCREMENT"] else parts in
  let parts :=
    if negb (Column.is_nullable column)
    then parts ++ [lit "NOT NULL"] else parts in
  let parts :=
    if Column.is_unique column
    then parts ++ [lit "UNIQUE"] else parts in
  let parts :=
    if truthy (Column.default_value column)
    then parts ++ [lit "DEFAULT " ++ get (Column.default_value column)]
    else parts in
  parts.

Definition _generate_column_definition (column : Column.t) : str :=
  join (lit " ") (_column_definition_parts column).

(** The local [col_defs] of [_generate_create_table] when it is joined. *)
Definition _create_table_col_defs (table : Table.t) : list str :=
  let col_defs :=
    fold_left
      (fun col_defs col =>
         col_defs ++ [lit "    " ++ _generate_column_definition col])
      (Table.columns table) [] in
  match Table.primary_keys table with
  | [] => col_defs
  | _ :: _ =>
      let pk_cols :=
        List.map (fun pk => _sanitize_name (Column.name pk))
                 (Table.primary_keys table) in
      let pk_constraint :=
        lit "    PRIMARY KEY (" ++ join (lit ", ") pk_cols ++ lit ")" in
      col_defs ++ [pk_constraint]
  end.

Definition _generate_create_table (table : Table.t) : str :=
  let lines :=
    [lit "CREATE TABLE " ++ _sanitize_name (Table.name table) ++ lit " ("] in
  let lines := lines ++ [join (lit "," ++ nl) (_create_table_col_defs table)] in
  let lines := lines ++ [lit ") ENGINE=InnoDB DEFAULT CHARSET=utf8mb4;"] in
  join nl lines.

(** [fk_name] of the loop body in [_generate_foreign_keys]. *)
Definition fk_name (table : Table.t) (idx : nat) : str :=
  lit "fk_" ++ _sanitize_name (Table.name table) ++ lit "_" ++ of_nat idx.

(** [stmt] of the loop body in [_generate_foreign_keys]. *)
Definition fk_stmt (table : Table.t) (idx : nat) (fk_col : Column.t) : str :=
  lit "ALTER TABLE " ++ _sanitize_name (Table.name table) ++ lit " "
  ++ lit "ADD CONSTRAINT " ++ fk_name table idx ++ lit " "
  ++ lit "FOREIGN KEY (" ++ _sanitize_name (Column.name fk_col) ++ lit ") "
  ++ lit "REFERENCES "
  ++ _sanitize_name (get (Column.references_table fk_col))
  ++ lit "(" ++ _sanitize_name (get (Column.references_column fk_col))
  ++ lit ") "
  ++ lit "ON DELETE CASCADE ON UPDATE CASCADE;".

(** The guard of the loop body: the column is skipped ([continue]) unless
    both halves of the reference are set. *)
Definition fk_complete (fk_col : Column.t) : bool :=
  truthy (Column.references_table fk_col)
  && truthy (Column.references_column fk_col).

Definition _generate_foreign_keys (table : Table.t) : list str :=
  fold_left
    (fun statements '(idx, fk_col) =>
       if negb (truthy (Column.references_table fk_col))
          || negb (truthy (Column.references_column fk_col))
       then statements
       else statements ++ [fk_stmt table idx fk_col])
    (enumerate 1 (Table.foreign_keys table)) [].

(** The passes of the loop in [_generate_foreign_keys] that reach
    [statements.append]: the index [enumerate] gave and the column. *)
Definition fk_emitted (table : Table.t) : list (nat * Column.t) :=
  filter (fun p => fk_complete (snd p))
         (enumerate 1 (Table.foreign_keys table)).

(** [stmt] of the loop body in [_generate_indexes]. *)
Definition index_stmt (table : Table.t) (fk_col : Column.t) : str :=
  let idx_name :=
    lit "idx_" ++ _sanitize_name (Table.name table) ++ lit "_"
    ++ _sanitize_name (Column.name fk_col) in
  lit "CREATE INDEX " ++ idx_name ++ lit " ON "
  ++ _sanitize_name (Table.name table) ++ lit "("
  ++ _sanitize_name (Column.name fk_col) ++ lit ");".

Definition _generate_indexes (table : Table.t) : list str :=
  fold_left
    (fun statements fk_col => statements ++ [index_stmt table fk_col])
    (Table.foreign_keys table) [].

(** Modelled from the spec: the statement list of
    [SQLGenerator.generate_ddl] in [src/generators/base.py]; all
    table-creation statements, then all foreign-key statements, then all
    index statements, each group in table order. *)
Definition ddl_statements (metadata : Metadata.t) : list str :=
  let tables := List.map snd (Metadata.tables metadata) in
  let statements :=
    fold_left (fun statements table =>
                 statements ++ [_generate_create_table table])
              tables [] in
  let statements :=
    fold_left (fun statements table =>
                 statements ++ _generate_foreign_keys table)
              tables statements in
  let statements :=
    fold_left (fun statements table =>
                 statements ++ _generate_indexes table)
              tables statements in
  statements.

(** Modelled from the spec: [SQLGenerator.generate_ddl] of
    [src/generators/base.py]; the script is the statements joined by a
    separator the spec leaves open. *)
Definition generate_ddl (separator : str) (metadata : Metadata.t) : str :=
  join separator (ddl_statements metadata).

End WithUnicode.
End MySQLGenerator.

(** ** [src/erd/physical_erd.py] *)

Module PhysicalERDGenerator.
Section WithUnicode.
Context {U : Unicode}.

Definition _sanitize_name (name : str) : str :=
  upper
    (List.map (fun c => if isalnum c || (c =? underscore) then c else underscore)
              name).

(** The local [mysql_type_clean] of [_generate_column_line]. *)
Definition mysql_type_clean (col : Column.t) : str :=
  let mysql_type := TypeMapper.map_to_mysql_type (Column.data_type col) in
  replace 44 (lit "_") (replace 41 [] (replace 40 (lit "_") mysql_type)).

(** The local [constraints] of [_generate_column_line]. *)
Definition _column_constraints (col : Column.t) : list str :=
  let constraints := [] in
  let constraints :=
    if Column.is_primary_key col
       && mem (upper (Column.data_type col)) AUTO_INCREMENT_TYPES
    then constraints ++ [lit "AUTO_INCREMENT"] else constraints in
  let constraints :=
    if negb (Column.is_nullable col)
    then constraints ++ [lit "NOT NULL"] else constraints in
  let constraints :=
    if Column.is_unique col
    then constraints ++ [lit "UNIQUE"] else constraints in
  let constraints :=
    if truthy (Column.default_value col)
    then constraints ++ [lit "DEFAULT " ++ get (Column.default_value col)]
    else constraints in
  let constraints :=
    if Column.is_foreign_key col
    then constraints ++ [lit "INDEX"] else constraints in
  constraints.

Definition _generate_column_line (col : Column.t) : str :=
  let col_name := _sanitize_name (Column.name col) in
  let key :=
    if Column.is_primary_key col then lit " PK"
    else if Column.is_foreign_key col then lit " FK"
    else [] in
  let constraints := _column_constraints col in
  let constraint_str :=
    match constraints with
    | [] => []
    | _ :: _ => lit " " ++ dquote ++ join (lit ", ") constraints ++ dquote
    end in
  mysql_type_clean col ++ lit " " ++ col_name ++ key ++ constraint_str.

Definition _generate_entity (table : Table.t) : str :=
  let entity_name := _sanitize_name (Table.name table) in
  let mermaid := lit "    " ++ entity_name ++ lit " {" ++ nl in
  let mermaid :=
    fold_left
      (fun mermaid col =>
         mermaid ++ (lit "        " ++ _generate_column_line col ++ nl))
      (Table.columns table) mermaid in
  mermaid ++ (lit "    }" ++ nl ++ nl).

(** The line one pass of the loop in [_generate_relationships] adds. *)
Definition relationship_line (table : Table.t) (fk_col : Column.t) : str :=
  let from_table := _sanitize_name (get (Column.references_table fk_col)) in
  let to_table := _sanitize_name (Table.name table) in
  lit "    " ++ from_table ++ lit " ||--o{ " ++ to_table ++ lit " : "
  ++ dquote ++ lit "FK, ON DELETE CASCADE" ++ dquote ++ nl.

Definition _generate_relationships (table : Table.t) : str :=
  fold_left
    (fun mermaid fk_col =>
       if negb (truthy (Column.references_table fk_col))
       then mermaid
       else mermaid ++ relationship_line table fk_col)
    (Table.foreign_keys table) [].

(** The passes of the loop in [_generate_relationships] that add a
    line. *)
Definition relationship_columns (table : Table.t) : list Column.t :=
  filter (fun fk_col => truthy (Column.references_table fk_col))
         (Table.foreign_keys table).

(** The relationship lines of a diagram, in emission order. *)
Definition relationship_lines (metadata : Metadata.t) : list str :=
  flat_map
    (fun table => List.map (relationship_line table)
                           (relationship_columns table))
    (List.map snd (Metadata.tables metadata)).

Definition generate_mermaid (metadata : Metadata.t) : str :=
  let mermaid := lit "erDiagram" ++ nl ++ nl in
  let mermaid :=
    fold_left
      (fun mermaid '(table_name, table) => mermaid ++ _generate_entity table)
      (Metadata.tables metadata) mermaid in
  let mermaid :=
    fold_left
      (fun mermaid '(table_name, table) =>
         mermaid ++ _generate_relationships table)
      (Metadata.tables metadata) mermaid in
  mermaid.

End WithUnicode.
End PhysicalERDGenerator.

(** ** The claims' own wording, for comparison with the code *)

Module Spec.
Section WithUnicode.
Context {U : Unicode}.


(** The diagram type token as the specification words it: parentheses
    and commas each become an underscore. *)
Definition type_token (col : Column.t) : str :=
  List.map (fun c => if (c =? 40) || (c =? 41) || (c =? 44)
                     then underscore else c)
           (TypeMapper.map_to_mysql_type (Column.data_type col)).

End WithUnicode.
End Spec.

(** ** Concrete schemas *)

Module Examples.

(** [Column(name, data_type)] with the loader's defaults. *)
Definition column (name data_type : string) : Column.t :=
  Column.mk (lit name) (lit data_type) false false true false
            None None None None.

Definition primary (c : Column.t) : Column.t :=
  Column.mk (Column.name c) (Column.data_type c) true
            (Column.is_foreign_key c) false (Column.is_unique c)
            (Column.default_value c) (Column.references_table c)
            (Column.references_column c) (Column.description c).

Definition references (c : Column.t) (table column : option string)
  : Column.t :=
  Column.mk (Column.name c) (Column.data_type c) (Column.is_primary_key c)
            true (Column.is_nullable c) (Column.is_unique c)
            (Column.default_value c) (option_map lit table)
            (option_map lit column) (Column.description c).

(** The schema of [tests/test_mysql.py], with one more foreign key
    [region_id] on [orders] whose [references_column] is missing. *)
Definition customers : Table.t :=
  Table.mk (lit "customers")
    [ primary (column "id" "INTEGER");
      Column.mk (lit "name") (lit "VARCHAR") false false false false
                None None None None;
      Column.mk (lit "email") (lit "VARCHAR") false false true true
                None None None None ]
    None.

Definition region_id : Column.t :=
  references (column "region_id" "INTEGER") (Some "regions"%string) None.

Definition customer_id : Column.t :=
  references (column "customer_id" "INTEGER") (Some "customers"%string) (Some "id"%string).

Definition orders : Table.t :=
  Table.mk (lit "orders")
    [ primary (column "id" "INTEGER"); region_id; customer_id ]
    None.

Definition shop : Metadata.t :=
  Metadata.mk (lit "test123")
    [ (lit "customers", customers); (lit "orders", orders) ].

(** A composite key, and a small-integer key. *)
Definition order_items : Table.t :=
  Table.mk (lit "order_items")
    [ primary (column "order_id" "int");
      primary (column "line_no" "smallint");
      column "note" "text" ]
    None.

End Examples.

(** ** Tokens of a statement *)

Module Tokens.

(** The characters that separate the tokens of a statement: blank, line
    break, comma and the two parentheses. *)
Definition delimiter (c : char) : bool :=
  (c =? 32) || (c =? 10) || (c =? 44) || (c =? 40) || (c =? 41).

(** The tokens of a text: the runs of characters between delimiters, in
    order, empty runs included. *)
Fixpoint tokens (s : str) : list str :=
  match s with
  | [] => [[]]
  | c :: rest =>
      if delimiter c then [] :: tokens rest
      else match tokens rest with
           | token :: more => (c :: token) :: more
           | [] => [[c]]
           end
  end.

(** How many tokens of a text are the given one. *)
Definition count_token (token : str) (s : str) : nat :=
  List.length (filter (eqb token) (tokens s)).

(** One integer primary key, and a column whose name is the keyword. *)
Definition keyword_named_column : Table.t :=
  Table.mk (lit "counters")
    [ Examples.primary (Examples.column "id" "INT");
      Examples.column "AUTO_INCREMENT" "VARCHAR" ]
    None.

End Tokens.

(** ** [src/config.py] *)

Module Config.

(** [s.split(sep)] for a one-character [sep]: the fields between the
    separators, empty ones included; the empty string has one field. *)
Fixpoint split (sep : char) (s : str) : list str :=
  match s with
  | [] => [[]]
  | c :: rest =>
      if c =? sep then [] :: split sep rest
      else match split sep rest with
           | field :: fields => (c :: field) :: fields
           | [] => [[c]]
           end
  end.

(** [os.getenv(name, default)], given the value of the variable in the
    environment, if it is set. *)
Definition getenv (value : option str) (default : str) : str :=
  match value with
  | Some v => v
  | None => default
  end.

(** [Config.ERD_FORMATS], given the environment's [ERD_FORMATS]. *)
Definition ERD_FORMATS (env : option str) : list str :=
  split 44 (getenv env (lit "png,svg,pdf")).

End Config.

(** ** [src/erd/renderer.py] *)

Module MermaidRenderer.

Definition _create_html (mermaid_content : str) : str :=
  nl
  ++ lit "<!DOCTYPE html>" ++ nl
  ++ lit "<html>" ++ nl
  ++ lit "<head>" ++ nl
  ++ lit "    <script src=" ++ dquote
  ++ lit "https://cdn.jsdelivr.net/npm/mermaid/dist/mermaid.min.js" ++ dquote
  ++ lit "></script>" ++ nl
  ++ lit "    <script>" ++ nl
  ++ lit "        mermaid.initialize({ startOnLoad: true, theme: 'default' });"
  ++ nl
  ++ lit "    </script>" ++ nl
  ++ lit "    <style>" ++ nl
  ++ lit "        body { margin: 20px; background: white; }" ++ nl
  ++ lit "        #mermaid-diagram { display: inline-block; }" ++ nl
  ++ lit "    </style>" ++ nl
  ++ lit "</head>" ++ nl
  ++ lit "<body>" ++ nl
  ++ lit "    <div id=" ++ dquote ++ lit "mermaid-diagram" ++ dquote
  ++ lit " class=" ++ dquote ++ lit "mermaid" ++ dquote ++ lit ">" ++ nl
  ++ mermaid_content ++ nl
  ++ lit "    </div>" ++ nl
  ++ lit "</body>" ++ nl
  ++ lit "</html>" ++ nl.

(** The two kinds of exception a call can raise: an [Exception], which
    [except Exception] catches, and any other [BaseException]
    ([asyncio.CancelledError], [KeyboardInterrupt]), which it does not. *)
Inductive raised : Type :=
| AnException
| OtherBaseException.

(** What one awaited call does: it returns or it raises. *)
Inductive outcome : Type :=
| Returns
| Raises (e : raised).

(** How a computation ends: with a value, or with an exception. *)
Inductive result (A : Type) : Type :=
| Return (a : A)
| Raise (e : raised).
Arguments Raise {A} e.

(** The value a computation returned, if it returned. *)
Definition returned (A : Type) (r : result A) : option A :=
  match r with
  | Return a => Some a
  | Raise _ => None
  end.

Section Rendering.

(** [pathlib.Path] and its [/] operator. *)
Variable Path : Type.
Variable joinpath : Path -> str -> Path.

(** The calls [render_to_images] makes on the logger, the browser, the
    page and the file system, in the order they are made. *)
Inductive event : Type :=
| LoggerInfo
| LoggerError
| Launch (executablePath : option str)
| NewPage
| SetContent (html : str)
| WaitForSelector (selector : str)
| Sleep (seconds : nat)
| QuerySelector (selector : str)
| Screenshot (path : Path)
| Pdf (path : Path)
| Evaluate
| WriteText (path : Path) (content : str)
| Close.

(** What the awaited calls of one run do; [svg] is what [page.evaluate]
    returns when it returns, the SVG text or [null]. *)
Record outcomes : Type := {
  launch : outcome;
  newPage : outcome;
  setContent : outcome;
  waitForSelector : outcome;
  sleep : outcome;
  querySelector : outcome;
  screenshot : outcome;
  pdf : outcome;
  evaluate : outcome;
  svg : option str;
  write_text : outcome;
  close : outcome
}.

(** The local [browser] (set or still [None]) and the calls made so far. *)
Record state : Type := {
  browser : bool;
  trace : list event
}.

(** A computation returns a value or raises, and leaves a state. *)
Definition M (A : Type) : Type := state -> result A * state.

Definition ret (A : Type) (a : A) : M A := fun s => (Return a, s).

Definition bind (A B : Type) (m : M A) (k : A -> M B) : M B :=
  fun s =>
    match m s with
    | (Return a, s') => k a s'
    | (Raise e, s') => (Raise e, s')
    end.

(** One call: it is recorded, and returns or raises. *)
Definition call (e : event) (does : outcome) : M unit :=
  fun s =>
    (match does with
     | Returns => Return tt
     | Raises x => Raise x
     end,
     {| browser := browser s; trace := trace s ++ [e] |}).

Definition assign_browser : M unit :=
  fun s => (Return tt, {| browser := true; trace := trace s |}).

(** [try: body / except Exception: handler; raise / finally: final]: the
    handler runs for an [Exception] only and the exception is raised
    again after it; [final] runs in every case, and an exception it
    raises takes the place of the outcome so far. *)
Definition try_except_finally (A : Type)
           (body : M A) (handler final : M unit) : M A :=
  fun s =>
    match body s with
    | (Return a, s1) =>
        match final s1 with
        | (Return _, s2) => (Return a, s2)
        | (Raise e, s2) => (Raise e, s2)
        end
    | (Raise AnException, s1) =>
        match handler s1 with
        | (Return _, s2) =>
            match final s2 with
            | (Return _, s3) => (Raise AnException, s3)
            | (Raise e, s3) => (Raise e, s3)
            end
        | (Raise e, s2) =>
            match final s2 with
            | (Return _, s3) => (Raise e, s3)
            | (Raise e', s3) => (Raise e', s3)
            end
        end
    | (Raise OtherBaseException, s1) =>
        match final s1 with
        | (Return _, s2) => (Raise OtherBaseException, s2)
        | (Raise e, s2) => (Raise e, s2)
        end
    end.

Notation "m ;; k" := (bind m (fun _ => k))
  (at level 61, right associativity).
Notation "x <- m ;; k" := (bind m (fun x => k))
  (at level 61, m at next level, right associativity).

Variable ERD_FORMATS : list str.
Variable PUPPETEER_EXECUTABLE_PATH : option str.
Variable output_dir : Path.
Variable env : outcomes.

(** The body of the [try] block of [render_to_images]. *)
Definition render_to_images_body (mermaid_content base_name : str)
  : M (list (str * Path)) :=
  let executablePath :=
    if truthy PUPPETEER_EXECUTABLE_PATH
    then PUPPETEER_EXECUTABLE_PATH else None in
  call (Launch executablePath) (launch env) ;;
  assign_browser ;;
  call NewPage (newPage env) ;;
  let html_content := _create_html mermaid_content in
  call (SetContent html_content) (setContent env) ;;
  call (WaitForSelector (lit "#mermaid-diagram")) (waitForSelector env) ;;
  call (Sleep 2) (sleep env) ;;
  call (QuerySelector (lit "#mermaid-diagram")) (querySelector env) ;;
  let results := [] in
  results <-
    (if mem (lit "png") ERD_FORMATS then
       let png_path := joinpath output_dir (base_name ++ lit ".png") in
       call (Screenshot png_path) (screenshot env) ;;
       call LoggerInfo Returns ;;
       ret (results ++ [(lit "png", png_path)])
     else ret results) ;;
  results <-
    (if mem (lit "pdf") ERD_FORMATS then
       let pdf_path := joinpath output_dir (base_name ++ lit ".pdf") in
       call (Pdf pdf_path) (pdf env) ;;
       call LoggerInfo Returns ;;
       ret (results ++ [(lit "pdf", pdf_path)])
     else ret results) ;;
  results <-
    (if mem (lit "svg") ERD_FORMATS then
       call Evaluate (evaluate env) ;;
       match svg env with
       | Some (c :: text) =>
           let svg_content := c :: text in
           let svg_path := joinpath output_dir (base_name ++ lit ".svg") in
           call (WriteText svg_path svg_content) (write_text env) ;;
           call LoggerInfo Returns ;;
           ret (results ++ [(lit "svg", svg_path)])
       | _ => ret results
       end
     else ret results) ;;
  ret results.

Definition render_to_images (mermaid_content base_name : str)
  : M (list (str * Path)) :=
  call LoggerInfo Returns ;;
  try_except_finally
    (render_to_images_body mermaid_content base_name)
    (call LoggerError Returns)
    (fun s => if browser s then call Close (close env) s
              else (Return tt, s)).

(** A run from the start: no browser yet, no call made. *)
Definition run (A : Type) (m : M A) : result A * list event :=
  match m {| browser := false; trace := [] |} with
  | (r, s) => (r, trace s)
  end.

End Rendering.

End MermaidRenderer.

(** ** [load_metadata] of [src/main.py] *)

Module Loader.

(** A column record of [metadata.json]: each key is absent ([None]) or
    holds a value of the type the loader's field takes. *)
Record col_data : Type := {
  columnName : option str;
  dataType : option str;
  isPrimaryKey : option bool;
  isForeignKey : option bool;
  nullable : option bool;
  isUnique : option bool;
  defaultValue : option str;
  referencesTable : option str;
  referencesColumn : option str;
  col_description : option str
}.

Record table_info : Type := {
  description : option str;
  columns : option (list col_data)
}.

(** The object [read_json] returns: the value under ['metadata'], if any,
    and in it the items of the object under ['tables'], if any. *)
Record raw_data : Type := {
  metadata : option (option (list (str * table_info)))
}.

Inductive result : Type :=
| FileNotFoundError
| KeyError (key : str)
| Loaded (metadata : Metadata.t).

(** [d.get(key, default)] on a typed field. *)
Definition get_default (A : Type) (value : option A) (default : A) : A :=
  match value with
  | Some v => v
  | None => default
  end.

(** [d[key] = value] on a dict kept as its items in insertion order: a
    key already present keeps its place. *)
Fixpoint dict_set (V : Type) (d : list (str * V)) (key : str) (value : V)
  : list (str * V) :=
  match d with
  | [] => [(key, value)]
  | (k, v) :: rest =>
      if eqb key k then (k, value) :: rest
      else (k, v) :: dict_set rest key value
  end.

(** The [Column(...)] call of the inner loop; [col_data['columnName']]
    raises [KeyError] when the key is absent. *)
Definition load_column (col_data : col_data) : option Column.t :=
  match columnName col_data with
  | None => None
  | Some name =>
      Some (Column.mk
              name
              (get_default (dataType col_data) (lit "VARCHAR"))
              (get_default (isPrimaryKey col_data) false)
              (get_default (isForeignKey col_data) false)
              (get_default (nullable col_data) true)
              (get_default (isUnique col_data) false)
              (defaultValue col_data)
              (referencesTable col_data)
              (referencesColumn col_data)
              (col_description col_data))
  end.

(** The inner loop: [table.columns.append(column)] for each record, up
    to the first that raises. *)
Fixpoint load_columns (records : list col_data) (columns : list Column.t)
  : option (list Column.t) :=
  match records with
  | [] => Some columns
  | col_data :: rest =>
      match load_column col_data with
      | None => None
      | Some column => load_columns rest (columns ++ [column])
      end
  end.

(** One pass of the outer loop. *)
Definition load_table (table_name : str) (table_info : table_info)
  : option Table.t :=
  match load_columns (get_default (columns table_info) []) [] with
  | None => None
  | Some columns => Some (Table.mk table_name columns (description table_info))
  end.

(** The outer loop: [metadata.tables[table_name] = table] for each item,
    up to the first pass that raises. *)
Fixpoint load_tables (items : list (str * table_info))
         (tables : list (str * Table.t)) : option (list (str * Table.t)) :=
  match items with
  | [] => Some tables
  | (table_name, table_info) :: rest =>
      match load_table table_name table_info with
      | None => None
      | Some table => load_tables rest (dict_set tables table_name table)
      end
  end.

(** [load_metadata], given what is at [metadata_path]: nothing, or the
    object [read_json] returns. *)
Definition load_metadata (file_id : str) (file : option raw_data) : result :=
  match file with
  | None => FileNotFoundError
  | Some raw_data =>
      let tables_data :=
        get_default (get_default (metadata raw_data) None) [] in
      match load_tables tables_data [] with
      | None => KeyError (lit "columnName")
      | Some tables => Loaded (Metadata.mk file_id tables)
      end
  end.

End Loader.

(** ** Concrete files *)

Module LoaderExamples.

(** A column record with a name and nothing else. *)
Definition bare_record (name : string) : Loader.col_data :=
  Loader.Build_col_data (Some (lit name)) None None None None None None None
                        None None.

Definition shop_file : Loader.raw_data :=
  Loader.Build_raw_data
    (Some (Some [ (lit "customers",
                   Loader.Build_table_info None (Some [bare_record "id"]));
                  (lit "orders",
                   Loader.Build_table_info None
                     (Some [bare_record "id";
                            bare_record "customer_id"])) ])).

(** The second table has a record without [columnName]. *)
Definition faulty_file : Loader.raw_data :=
  Loader.Build_raw_data
    (Some (Some [ (lit "customers",
                   Loader.Build_table_info None (Some [bare_record "id"]));
                  (lit "orders",
                   Loader.Build_table_info None
                     (Some [bare_record "id";
                            Loader.Build_col_data
                              None (Some (lit "INT")) None None None None
                              None None None None])) ])).

End LoaderExamples.

(** ** Optional fields *)

Module Optional.

(** An optional string with the empty string read as absent. *)
Definition nonempty (o : option str) : option str :=
  if truthy o then o else None.

(** A column with the empty strings among its default value and its
    reference read as absent. *)
Definition without_empty_strings (c : Column.t) : Column.t :=
  Column.mk (Column.name c) (Column.data_type c) (Column.is_primary_key c)
            (Column.is_foreign_key c) (Column.is_nullable c)
            (Column.is_unique c)
            (nonempty (Column.default_value c))
            (nonempty (Column.references_table c))
            (nonempty (Column.references_column c))
            (Column.description c).

Definition table_without_empty_strings (t : Table.t) : Table.t :=
  Table.mk (Table.name t)
           (List.map without_empty_strings (Table.columns t))
           (Table.description t).

End Optional.

(** ** What the generators read *)

Module Bare.

(** A column without its description. *)
Definition column (c : Column.t) : Column.t :=
  Column.mk (Column.name c) (Column.data_type c) (Column.is_primary_key c)
            (Column.is_foreign_key c) (Column.is_nullable c)
            (Column.is_unique c) (Column.default_value c)
            (Column.references_table c) (Column.references_column c) None.

(** A table without its description and those of its columns. *)
Definition table (t : Table.t) : Table.t :=
  Table.mk (Table.name t) (List.map column (Table.columns t)) None.

(** A Metadata without its file identifier, with its tables under empty
    keys and without descriptions. *)
Definition metadata (m : Metadata.t) : Metadata.t :=
  Metadata.mk [] (List.map (fun item => ([], table (snd item)))
                           (Metadata.tables m)).

End Bare.

(** * Properties *)

(** ** Strings and loops *)

Section StringFacts.

Lemma eqb_eq (a b : str) : eqb a b = true <-> a = b.
Proof.
  revert b; induction a as [|x a IH]; intros [|y b]; simpl;
    try (split; [discriminate | congruence]); try tauto.
  rewrite andb_true_iff, N.eqb_eq, IH.
  split; [intros [-> ->]; reflexivity | intros E; inversion E; auto].
Qed.

Lemma eqb_refl (a : str) : eqb a a = true.
Proof. apply eqb_eq; reflexivity. Qed.

Lemma eqb_neq (a b : str) : eqb a b = false <-> a <> b.
Proof.
  rewrite <- eqb_eq. destruct (eqb a b); split; congruence.
Qed.

Lemma mem_In (x : str) (l : list str) : mem x l = true <-> In x l.
Proof.
  unfold mem. rewrite existsb_exists. split.
  - intros (y & Hy & E). apply eqb_eq in E. subst. assumption.
  - intros H. exists x. split; [assumption | apply eqb_refl].
Qed.

Lemma lit_inj (s t : string) : lit s = lit t -> s = t.
Proof.
  unfold lit. intros E.
  rewrite <- (string_of_list_ascii_of_string s),
          <- (string_of_list_ascii_of_string t).
  f_equal.
  generalize dependent (list_ascii_of_string t).
  induction (list_ascii_of_string s) as [|a l IH]; intros [|b l'] E;
    simpl in E; try discriminate; [reflexivity|].
  injection E as Ea El.
  f_equal; [|auto].
  rewrite <- (ascii_N_embedding a), <- (ascii_N_embedding b).
  congruence.
Qed.

(** Distinct indices are rendered as distinct decimal numerals. *)
Lemma of_nat_inj (n m : nat) : of_nat n = of_nat m -> n = m.
Proof.
  unfold of_nat. intros E. apply lit_inj in E.
  assert (Eu : Nat.to_uint n = Nat.to_uint m).
  { pose proof (NilEmpty.usu (Nat.to_uint n)) as Hn.
    pose proof (NilEmpty.usu (Nat.to_uint m)) as Hm.
    rewrite E in Hn. congruence. }
  rewrite <- (DecimalNat.Unsigned.of_to n), <- (DecimalNat.Unsigned.of_to m).
  congruence.
Qed.

Lemma dict_get_In (d : list (str * str)) (key default : str) :
  dict_has d key = true ->
  exists v, In (key, v) d /\ dict_get d key default = v.
Proof.
  unfold dict_has. induction d as [|[k v] d IH]; simpl; [discriminate|].
  destruct (eqb key k) eqn:E.
  - intros _. apply eqb_eq in E. subst. eauto.
  - simpl. intros H. destruct (IH H) as (w & Hin & Hw). eauto.
Qed.

Lemma dict_get_default (d : list (str * str)) (key default : str) :
  dict_has d key = false -> dict_get d key default = default.
Proof.
  unfold dict_has. induction d as [|[k v] d IH]; simpl; [reflexivity|].
  destruct (eqb key k); simpl; [discriminate | assumption].
Qed.

End StringFacts.

Section LoopFacts.
Variables A B : Type.

(** A loop that appends to its accumulator is a [flat_map]. *)
Lemma fold_left_append (step : list B -> A -> list B) (g : A -> list B) :
  (forall acc x, step acc x = acc ++ g x) ->
  forall l init, fold_left step l init = init ++ flat_map g l.
Proof.
  intros Hstep. induction l as [|x l IH]; intros init; simpl.
  - now rewrite app_nil_r.
  - rewrite IH, Hstep, <- app_assoc. reflexivity.
Qed.

Lemma flat_map_singleton (f : A -> B) (l : list A) :
  flat_map (fun x => [f x]) l = List.map f l.
Proof. induction l; simpl; congruence. Qed.

Lemma flat_map_guard (p : A -> bool) (f : A -> B) (l : list A) :
  flat_map (fun x => if p x then [f x] else []) l = List.map f (filter p l).
Proof.
  induction l as [|x l IH]; simpl; [reflexivity|].
  destruct (p x); simpl; congruence.
Qed.

Lemma enumerate_nth (l : list A) :
  forall start idx x,
    In (idx, x) (enumerate start l) ->
    (start <= idx)%nat /\ nth_error l (idx - start) = Some x.
Proof.
  induction l as [|y l IH]; simpl; intros start idx x; [tauto|].
  intros [E|H].
  - injection E as <- <-. rewrite Nat.sub_diag. auto.
  - destruct (IH _ _ _ H) as [Hle Hn]. split; [lia|].
    replace (idx - start)%nat with (S (idx - S start)) by lia.
    assumption.
Qed.

Lemma enumerate_fst (l : list A) :
  forall start, List.map fst (enumerate start l) = seq start (List.length l).
Proof. induction l; simpl; intros; [|rewrite IHl]; reflexivity. Qed.

Lemma enumerate_snd (l : list A) :
  forall start, List.map snd (enumerate start l) = l.
Proof. induction l; simpl; intros; [|rewrite IHl]; reflexivity. Qed.

End LoopFacts.

(** ** Type Mapper *)

Section TypeMapperFacts.
Context {U : Unicode}.
Import TypeMapper.

(** The dict literal has no repeated key. *)
Lemma MYSQL_TYPE_MAP_keys_NoDup : NoDup (List.map fst MYSQL_TYPE_MAP).
Proof.
  assert (forall l : list str,
             (fix nodupb (l : list str) : bool :=
                match l with
                | [] => true
                | x :: r => negb (mem x r) && nodupb r
                end) l = true -> NoDup l) as check.
  { induction l as [|x r IH]; intros H; constructor;
      apply andb_true_iff in H; destruct H as [Hx Hr]; [|auto].
    rewrite <- mem_In. now destruct (mem x r). }
  apply check. vm_compute. reflexivity.
Qed.

Lemma MYSQL_TYPE_MAP_lookup (k v default : str) :
  In (k, v) MYSQL_TYPE_MAP -> dict_get MYSQL_TYPE_MAP k default = v.
Proof.
  intros Hin. unfold MYSQL_TYPE_MAP in Hin. simpl in Hin.
  repeat (destruct Hin as [E|Hin];
          [injection E as <- <-; vm_compute; reflexivity|]).
  contradiction.
Qed.

(** C6: the Type Mapper is a total function of its input that depends on
    the input only through its upper-cased form; on an input whose
    upper-cased form is a key of the table the result is the value the
    table gives that key, and on every other input it is the fallback
    [VARCHAR(255)]. *)
Theorem map_to_mysql_type_total_case_insensitive (x : str) :
  (forall y, upper y = upper x -> map_to_mysql_type y = map_to_mysql_type x)
  /\ (forall v, In (upper x, v) MYSQL_TYPE_MAP -> map_to_mysql_type x = v)
  /\ (dict_has MYSQL_TYPE_MAP (upper x) = false ->
      map_to_mysql_type x = lit "VARCHAR(255)")
  /\ (dict_has MYSQL_TYPE_MAP (upper x) = true ->
      exists v, In (upper x, v) MYSQL_TYPE_MAP /\ map_to_mysql_type x = v).
Proof.
  unfold map_to_mysql_type. repeat split.
  - intros y E. now rewrite E.
  - intros v Hin. now apply MYSQL_TYPE_MAP_lookup.
  - apply dict_get_default.
  - apply dict_get_In.
Qed.

(** Every result of the Type Mapper is a value of the table or the
    fallback. *)
Lemma map_to_mysql_type_range (x : str) :
  In (map_to_mysql_type x)
     (lit "VARCHAR(255)" :: List.map snd MYSQL_TYPE_MAP).
Proof.
  unfold map_to_mysql_type.
  destruct (dict_has MYSQL_TYPE_MAP (upper x)) eqn:E.
  - destruct (dict_get_In _ _ (lit "VARCHAR(255)") E) as (v & Hin & ->).
    right. change v with (snd (upper x, v)). now apply in_map.
  - rewrite dict_get_default by assumption. now left.
Qed.

End TypeMapperFacts.

Section TypeMapperRuns.
#[local] Existing Instance CPython.unicode.

Lemma map_to_mysql_type_witness :
  TypeMapper.map_to_mysql_type (lit "Integer")
  = TypeMapper.map_to_mysql_type (lit "INTEGER")
  /\ TypeMapper.map_to_mysql_type (lit "decimal") = lit "DECIMAL(18,2)"
  /\ TypeMapper.map_to_mysql_type (lit "geometry") = lit "VARCHAR(255)".
Proof.
  split; [|split].
  - apply (map_to_mysql_type_total_case_insensitive (lit "INTEGER")).
    reflexivity.
  - apply (map_to_mysql_type_total_case_insensitive (lit "decimal")).
    vm_compute. do 12 right. left. reflexivity.
  - apply (map_to_mysql_type_total_case_insensitive (lit "geometry")).
    reflexivity.
Defined.

End TypeMapperRuns.

(** ** Name sanitization *)

Section SanitizeFacts.
Context {U : Unicode}.

Lemma ddl_sanitize_keeps (x : str) :
  forallb (fun c => isalnum c || (c =? underscore)) x = true ->
  MySQLGenerator._sanitize_name x = x.
Proof.
  unfold MySQLGenerator._sanitize_name.
  induction x as [|c x IH]; simpl; [reflexivity|].
  intros H. apply andb_true_iff in H. destruct H as [Hc Hx].
  rewrite Hc, IH by assumption. reflexivity.
Qed.

Lemma ddl_sanitize_chars (x : str) :
  forallb (fun c => isalnum c || (c =? underscore))
          (MySQLGenerator._sanitize_name x) = true.
Proof.
  unfold MySQLGenerator._sanitize_name.
  induction x as [|c x IH]; simpl; [reflexivity|].
  rewrite IH, andb_true_r.
  destruct (isalnum c || (c =? underscore)) eqn:E; [assumption|].
  apply orb_true_r.
Qed.

Lemma erd_sanitize_upper (x : str) :
  PhysicalERDGenerator._sanitize_name x
  = upper (MySQLGenerator._sanitize_name x).
Proof. reflexivity. Qed.

Lemma upper_fixed (z : str) :
  forallb (fun c => eqb (upper_char c) [c]) z = true -> upper z = z.
Proof.
  unfold upper. induction z as [|c z IH]; simpl; [reflexivity|].
  intros H. apply andb_true_iff in H. destruct H as [Hc Hz].
  apply eqb_eq in Hc. rewrite Hc, IH by assumption. reflexivity.
Qed.

Lemma forallb_and (A : Type) (p q : A -> bool) (l : list A) :
  forallb (fun a => p a && q a) l = forallb p l && forallb q l.
Proof.
  induction l as [|a l IH]; simpl; [reflexivity|].
  rewrite IH. destruct (p a), (q a), (forallb p l); reflexivity.
Qed.

(** Every character below 128 satisfies a property that holds of the 128
    ASCII code points. *)
Lemma ascii_cases (P : char -> bool) :
  forallb P (List.map N.of_nat (seq 0 128)) = true ->
  forall c, c < 128 -> P c = true.
Proof.
  intros H c Hc.
  rewrite forallb_forall in H. apply H.
  rewrite <- (N2Nat.id c). apply in_map, in_seq. lia.
Qed.

(** C8, as amended: sanitizing twice is sanitizing once for the DDL
    variant on every name, and for the ERD variant on every name whose
    sanitized form consists of alphanumerics and underscores that
    upper-casing leaves unchanged; every name of ASCII characters is
    such a name, wherever the character tables agree with ASCII. *)
Theorem sanitize_name_idempotent :
  (forall x,
      MySQLGenerator._sanitize_name (MySQLGenerator._sanitize_name x)
      = MySQLGenerator._sanitize_name x)
  /\ (forall x,
         forallb (fun c => (isalnum c || (c =? underscore))
                           && eqb (upper_char c) [c])
                 (PhysicalERDGenerator._sanitize_name x) = true ->
         PhysicalERDGenerator._sanitize_name
           (PhysicalERDGenerator._sanitize_name x)
         = PhysicalERDGenerator._sanitize_name x)
  /\ ((forall c, c < 128 ->
                 isalnum c = CPython.isalnum c
                 /\ upper_char c = CPython.upper_char c) ->
      forall x,
        forallb (fun c => c <? 128) x = true ->
        PhysicalERDGenerator._sanitize_name
          (PhysicalERDGenerator._sanitize_name x)
        = PhysicalERDGenerator._sanitize_name x).
Proof.
  assert (ddl : forall x,
             MySQLGenerator._sanitize_name (MySQLGenerator._sanitize_name x)
             = MySQLGenerator._sanitize_name x).
  { intros x. apply ddl_sanitize_keeps, ddl_sanitize_chars. }
  assert (erd : forall x,
             forallb (fun c => (isalnum c || (c =? underscore))
                               && eqb (upper_char c) [c])
                     (PhysicalERDGenerator._sanitize_name x) = true ->
             PhysicalERDGenerator._sanitize_name
               (PhysicalERDGenerator._sanitize_name x)
             = PhysicalERDGenerator._sanitize_name x).
  { intros x H. rewrite forallb_and in H.
    apply andb_true_iff in H. destruct H as [Hkeep Hup].
    rewrite (erd_sanitize_upper (PhysicalERDGenerator._sanitize_name x)).
    rewrite ddl_sanitize_keeps by assumption.
    now apply upper_fixed. }
  split; [exact ddl | split; [exact erd |]].
  intros Hascii x Hx. apply erd.
  rewrite erd_sanitize_upper. unfold upper, MySQLGenerator._sanitize_name.
  induction x as [|c x IH]; simpl; [reflexivity|].
  simpl in Hx. apply andb_true_iff in Hx. destruct Hx as [Hc Hx].
  rewrite forallb_app, (IH Hx), andb_true_r.
  apply N.ltb_lt in Hc.
  destruct (Hascii c Hc) as [Ealnum _]. rewrite Ealnum.
  match goal with
  | |- context [upper_char ?k] => remember k as kept eqn:Ek
  end.
  assert (Hk : kept < 128
               /\ forallb (fun d => (d <? 128)
                                    && ((CPython.isalnum d || (d =? underscore))
                                        && eqb (CPython.upper_char d) [d]))
                          (CPython.upper_char kept) = true).
  { subst kept. split.
    - destruct (CPython.isalnum c || (c =? underscore));
        [assumption | reflexivity].
    - clear Ealnum IH. revert c Hc.
      apply (ascii_cases
               (fun c =>
                  forallb (fun d => (d <? 128)
                                    && ((CPython.isalnum d || (d =? underscore))
                                        && eqb (CPython.upper_char d) [d]))
                          (CPython.upper_char
                             (if CPython.isalnum c || (c =? underscore)
                              then c else underscore)))).
      vm_compute. reflexivity. }
  destruct Hk as [Hlt Hall].
  destruct (Hascii kept Hlt) as [_ Eup]. rewrite Eup.
  rewrite forallb_forall in Hall |- *.
  intros d Hd. specialize (Hall d Hd).
  apply andb_true_iff in Hall. destruct Hall as [Hd128 Hd'].
  apply N.ltb_lt in Hd128.
  destruct (Hascii d Hd128) as [-> ->]. assumption.
Qed.

End SanitizeFacts.

Section SanitizeRuns.
#[local] Existing Instance CPython.unicode.

Lemma sanitize_name_idempotent_witness :
  PhysicalERDGenerator._sanitize_name
    (PhysicalERDGenerator._sanitize_name (lit "order-items 2024"))
  = PhysicalERDGenerator._sanitize_name (lit "order-items 2024")
  /\ PhysicalERDGenerator._sanitize_name (lit "order-items 2024")
     = lit "ORDER_ITEMS_2024".
Proof.
  split; [|reflexivity].
  apply (proj1 (proj2 sanitize_name_idempotent) (lit "order-items 2024")).
  vm_compute. reflexivity.
Defined.

(** C8, as stated, fails for the ERD variant on U+01F0 (small j with
    caron): it is alphanumeric and upper-cases to J followed by U+030C,
    a combining mark, which the second pass replaces. *)
Lemma sanitize_name_not_idempotent :
  PhysicalERDGenerator._sanitize_name [496] = [74; 780]
  /\ PhysicalERDGenerator._sanitize_name
       (PhysicalERDGenerator._sanitize_name [496]) = [74; 95]
  /\ PhysicalERDGenerator._sanitize_name
       (PhysicalERDGenerator._sanitize_name [496])
     <> PhysicalERDGenerator._sanitize_name [496].
Proof.
  repeat split. vm_compute. discriminate.
Qed.

End SanitizeRuns.

(** ** The ERD type token *)

Section TypeTokenFacts.
Context {U : Unicode}.
Import PhysicalERDGenerator.

Lemma replace_removes (old : char) (new s : str) :
  ~ In old new -> ~ In old (replace old new s).
Proof.
  intros Hnew H. unfold replace in H. apply in_flat_map in H.
  destruct H as (c & _ & Hc).
  destruct (c =? old) eqn:E; [auto|].
  destruct Hc as [<-|[]]. now rewrite N.eqb_refl in E.
Qed.

Lemma replace_keeps_absent (c old : char) (new s : str) :
  ~ In c s -> ~ In c new -> ~ In c (replace old new s).
Proof.
  intros Hs Hnew H. unfold replace in H. apply in_flat_map in H.
  destruct H as (d & Hd & Hc).
  destruct (d =? old); [auto|].
  destruct Hc as [<-|[]]. auto.
Qed.

Lemma replace_app (old : char) (new s t : str) :
  replace old new (s ++ t) = replace old new s ++ replace old new t.
Proof. apply flat_map_app. Qed.

(** The three replacements in a row are one pass over the dialect type. *)
Lemma mysql_type_clean_one_pass (s : str) :
  replace 44 (lit "_") (replace 41 [] (replace 40 (lit "_") s))
  = flat_map (fun c => if (c =? 40) || (c =? 44) then [underscore]
                       else if c =? 41 then [] else [c]) s.
Proof.
  induction s as [|c s IH]; [reflexivity|].
  change (c :: s) with ([c] ++ s).
  rewrite !replace_app, flat_map_app, IH. f_equal.
  unfold replace. simpl. rewrite !app_nil_r.
  destruct (c =? 40) eqn:E40; simpl; [reflexivity|].
  destruct (c =? 41) eqn:E41; simpl.
  - apply N.eqb_eq in E41. subst. reflexivity.
  - rewrite app_nil_r. destruct (c =? 44); reflexivity.
Qed.

(** C7, as amended: the type token of an ERD column line is the Type
    Mapper's dialect type with every opening parenthesis and every comma
    replaced by an underscore and every closing parenthesis removed; it
    holds no parenthesis, comma or blank, and the column line starts
    with it followed by a blank. *)
Theorem erd_type_token_clean (col : Column.t) :
  let mysql_type := TypeMapper.map_to_mysql_type (Column.data_type col) in
  let token := mysql_type_clean col in
  token = flat_map (fun c => if (c =? 40) || (c =? 44) then [underscore]
                             else if c =? 41 then [] else [c]) mysql_type
  /\ ~ In 40 token /\ ~ In 41 token /\ ~ In 44 token /\ ~ In 32 token
  /\ exists rest, _generate_column_line col = token ++ 32 :: rest.
Proof.
  intros mysql_type token. subst token. unfold mysql_type_clean.
  fold mysql_type.
  split; [apply mysql_type_clean_one_pass|].
  split.
  { apply replace_keeps_absent; [|simpl; intuition discriminate].
    apply replace_keeps_absent; [|simpl; tauto].
    apply replace_removes. simpl; intuition discriminate. }
  split.
  { apply replace_keeps_absent; [|simpl; intuition discriminate].
    apply replace_removes. simpl; tauto. }
  split.
  { apply replace_removes. simpl; intuition discriminate. }
  split.
  { rewrite mysql_type_clean_one_pass.
    pose proof (map_to_mysql_type_range (Column.data_type col)) as Hr.
    fold mysql_type in Hr. revert Hr. generalize mysql_type.
    intros t Hr. simpl in Hr.
    repeat (destruct Hr as [<-|Hr];
            [vm_compute; intuition discriminate|]).
    contradiction. }
  unfold _generate_column_line, mysql_type_clean. fold mysql_type.
  eexists. simpl. reflexivity.
Qed.

End TypeTokenFacts.

Section TypeTokenRuns.
#[local] Existing Instance CPython.unicode.

(** C7, as stated, fails on a [VARCHAR] column: the closing parenthesis
    of [VARCHAR(255)] is dropped, not replaced by an underscore. *)
Lemma erd_type_token_drops_closing_parenthesis :
  let col := Examples.column "name" "VARCHAR" in
  PhysicalERDGenerator.mysql_type_clean col = lit "VARCHAR_255"
  /\ Spec.type_token col = lit "VARCHAR_255_"
  /\ PhysicalERDGenerator.mysql_type_clean col <> Spec.type_token col.
Proof.
  repeat split. vm_compute. discriminate.
Qed.

End TypeTokenRuns.

(** ** DDL generator: loops in closed form *)

Section DDLFacts.
Context {U : Unicode}.
Import MySQLGenerator.

Lemma _generate_foreign_keys_emitted (table : Table.t) :
  _generate_foreign_keys table
  = List.map (fun p => fk_stmt table (fst p) (snd p)) (fk_emitted table).
Proof.
  unfold _generate_foreign_keys, fk_emitted.
  rewrite fold_left_append
    with (g := fun p => if fk_complete (snd p)
                        then [fk_stmt table (fst p) (snd p)] else []).
  - simpl. apply flat_map_guard.
  - intros acc [idx fk_col]. unfold fk_complete. simpl.
    destruct (truthy (Column.references_table fk_col)),
             (truthy (Column.references_column fk_col)); simpl;
      now rewrite ?app_nil_r.
Qed.

Lemma _generate_indexes_map (table : Table.t) :
  _generate_indexes table
  = List.map (index_stmt table) (Table.foreign_keys table).
Proof.
  unfold _generate_indexes.
  rewrite fold_left_append with (g := fun c => [index_stmt table c]);
    [|reflexivity].
  simpl. apply flat_map_singleton.
Qed.

Lemma _create_table_col_defs_closed (table : Table.t) :
  _create_table_col_defs table
  = List.map (fun col => lit "    " ++ _generate_column_definition col)
             (Table.columns table)
    ++ match Table.primary_keys table with
       | [] => []
       | _ :: _ =>
           [lit "    PRIMARY KEY ("
            ++ join (lit ", ")
                    (List.map (fun pk => _sanitize_name (Column.name pk))
                              (Table.primary_keys table))
            ++ lit ")"]
       end.
Proof.
  unfold _create_table_col_defs.
  rewrite fold_left_append
    with (g := fun col => [lit "    " ++ _generate_column_definition col]);
    [|reflexivity].
  rewrite flat_map_singleton. simpl.
  destruct (Table.primary_keys table); [now rewrite app_nil_r | reflexivity].
Qed.

Lemma fk_emitted_position (table : Table.t) (idx : nat) (col : Column.t) :
  In (idx, col) (fk_emitted table) ->
  (1 <= idx)%nat
  /\ nth_error (Table.foreign_keys table) (idx - 1) = Some col
  /\ fk_complete col = true.
Proof.
  unfold fk_emitted. rewrite filter_In. simpl. intros [Hin Hc].
  apply enumerate_nth in Hin. tauto.
Qed.

Lemma fk_emitted_indices_NoDup (table : Table.t) :
  NoDup (List.map fst (fk_emitted table)).
Proof.
  unfold fk_emitted.
  generalize (Table.foreign_keys table) as l, 1%nat as start.
  assert (bound : forall (l : list Column.t) start idx,
             In idx (List.map fst
                       (filter (fun p => fk_complete (snd p))
                               (enumerate start l))) ->
             (start <= idx)%nat).
  { intros l start idx H. apply in_map_iff in H.
    destruct H as ([i c] & <- & H). apply filter_In in H.
    destruct H as [H _]. apply enumerate_nth in H. tauto. }
  induction l as [|c l IH]; intros start; simpl; [constructor|].
  destruct (fk_complete c); [|apply IH].
  simpl. constructor; [|apply IH].
  intros H. apply bound in H. lia.
Qed.


End DDLFacts.

(** ** Foreign keys and indexes *)

Section ForeignKeyFacts.
Context {U : Unicode}.
Import MySQLGenerator.



(** C2: a foreign-key-flagged column without [references_column] gets no
    foreign-key statement, whatever its position, and exactly one index
    statement, at its position among the index statements of the table,
    which are one per foreign-key-flagged column; both generators return
    their statement lists without failing. *)
Theorem incomplete_reference_keeps_index
        (table : Table.t) (k : nat) (col : Column.t) :
  nth_error (Table.foreign_keys table) k = Some col ->
  truthy (Column.references_column col) = false ->
  (forall idx, ~ In (idx, col) (fk_emitted table))
  /\ _generate_foreign_keys table
     = List.map (fun p => fk_stmt table (fst p) (snd p)) (fk_emitted table)
  /\ (List.length (_generate_foreign_keys table)
      < List.length (Table.foreign_keys table))%nat
  /\ List.length (_generate_indexes table)
     = List.length (Table.foreign_keys table)
  /\ nth_error (_generate_indexes table) k = Some (index_stmt table col).
Proof.
  intros Hk Hmissing.
  assert (Hinc : fk_complete col = false).
  { unfold fk_complete. rewrite Hmissing. apply andb_false_r. }
  split.
  { intros idx H. apply fk_emitted_position in H.
    destruct H as (_ & _ & H). congruence. }
  split; [apply _generate_foreign_keys_emitted|].
  split.
  { rewrite _generate_foreign_keys_emitted, length_map.
    unfold fk_emitted.
    rewrite <- (length_map snd).
    assert (E : forall (l : list Column.t) start,
               List.map snd (filter (fun p => fk_complete (snd p))
                                    (enumerate start l))
               = filter fk_complete l).
    { induction l as [|c l IH]; intros start; simpl; [reflexivity|].
      destruct (fk_complete c); simpl; now rewrite IH. }
    rewrite E.
    revert k Hk. generalize (Table.foreign_keys table) as l.
    induction l as [|c l IH]; intros [|k] Hk; simpl in *; try discriminate.
    - injection Hk as ->. rewrite Hinc.
      pose proof (filter_length_le fk_complete l). lia.
    - specialize (IH _ Hk). destruct (fk_complete c); simpl; lia. }
  rewrite _generate_indexes_map, length_map.
  split; [reflexivity|].
  now rewrite nth_error_map, Hk.
Qed.

End ForeignKeyFacts.

Section ForeignKeyRuns.
#[local] Existing Instance CPython.unicode.


Lemma incomplete_reference_keeps_index_witness :
  (forall idx,
      ~ In (idx, Examples.region_id)
           (MySQLGenerator.fk_emitted Examples.orders))
  /\ nth_error (MySQLGenerator._generate_indexes Examples.orders) 0
     = Some (lit "CREATE INDEX idx_orders_region_id ON orders(region_id);").
Proof.
  destruct (incomplete_reference_keeps_index
              Examples.orders 0 (col := Examples.region_id)
              eq_refl eq_refl) as (H1 & _ & _ & _ & H2).
  split; [exact H1 | exact H2].
Defined.

End ForeignKeyRuns.

(** ** AUTO_INCREMENT *)

(** Case analysis on the four tests of [_generate_column_definition]. *)
Ltac column_flags column :=
  destruct (Column.is_primary_key column
            && mem (upper (Column.data_type column)) AUTO_INCREMENT_TYPES),
           (negb (Column.is_nullable column)),
           (Column.is_unique column),
           (truthy (Column.default_value column)).

Section AutoIncrementFacts.
Context {U : Unicode}.
Import MySQLGenerator.

Lemma AUTO_INCREMENT_TYPES_spec (s : str) :
  mem s AUTO_INCREMENT_TYPES = true
  <-> s = lit "INTEGER" \/ s = lit "INT" \/ s = lit "BIGINT".
Proof.
  rewrite mem_In. unfold AUTO_INCREMENT_TYPES. simpl.
  intuition congruence.
Qed.

(** The parts after name and type, in closed form. *)
Lemma _column_definition_parts_closed (column : Column.t) :
  _column_definition_parts column
  = [ _sanitize_name (Column.name column);
      map_type (Column.data_type column) ]
    ++ (if Column.is_primary_key column
           && mem (upper (Column.data_type column)) AUTO_INCREMENT_TYPES
        then [lit "AUTO_INCREMENT"] else [])
    ++ (if negb (Column.is_nullable column) then [lit "NOT NULL"] else [])
    ++ (if Column.is_unique column then [lit "UNIQUE"] else [])
    ++ (if truthy (Column.default_value column)
        then [lit "DEFAULT " ++ get (Column.default_value column)] else []).
Proof.
  unfold _column_definition_parts.
  column_flags column; reflexivity.
Qed.

(** The number of AUTO_INCREMENT tokens among the modifiers of one
    column definition. *)
Lemma column_modifiers_count (column : Column.t) :
  List.length (filter (eqb (lit "AUTO_INCREMENT"))
                      (skipn 2 (_column_definition_parts column)))
  = if Column.is_primary_key column
       && mem (upper (Column.data_type column)) AUTO_INCREMENT_TYPES
    then 1%nat else 0%nat.
Proof.
  rewrite _column_definition_parts_closed.
  column_flags column; reflexivity.
Qed.

Lemma filter_eqb_In (x : str) (l : list str) :
  In x l <-> (0 < List.length (filter (eqb x) l))%nat.
Proof.
  induction l as [|y l IH]; simpl; [lia|].
  destruct (eqb x y) eqn:E; simpl.
  - apply eqb_eq in E. subst. intuition lia.
  - apply eqb_neq in E. rewrite <- IH. intuition congruence.
Qed.

Lemma column_modifiers_auto_increment (column : Column.t) :
  In (lit "AUTO_INCREMENT") (skipn 2 (_column_definition_parts column))
  <-> Column.is_primary_key column = true
      /\ In (upper (Column.data_type column)) AUTO_INCREMENT_TYPES.
Proof.
  rewrite filter_eqb_In, column_modifiers_count, <- mem_In, <- andb_true_iff.
  destruct (Column.is_primary_key column
            && mem (upper (Column.data_type column)) AUTO_INCREMENT_TYPES);
    intuition (try lia; try discriminate).
Qed.

Lemma column_constraints_auto_increment (col : Column.t) :
  In (lit "AUTO_INCREMENT") (PhysicalERDGenerator._column_constraints col)
  <-> Column.is_primary_key col = true
      /\ In (upper (Column.data_type col)) AUTO_INCREMENT_TYPES.
Proof.
  rewrite filter_eqb_In, <- mem_In, <- andb_true_iff.
  unfold PhysicalERDGenerator._column_constraints.
  destruct (Column.is_primary_key col
            && mem (upper (Column.data_type col)) AUTO_INCREMENT_TYPES),
           (negb (Column.is_nullable col)),
           (Column.is_unique col),
           (truthy (Column.default_value col)),
           (Column.is_foreign_key col); simpl;
    intuition (try lia; try discriminate).
Qed.

(** The text of a column definition line. *)
Lemma _generate_column_definition_text (column : Column.t) :
  _generate_column_definition column
  = _sanitize_name (Column.name column) ++ lit " "
    ++ map_type (Column.data_type column)
    ++ (if Column.is_primary_key column
           && mem (upper (Column.data_type column)) AUTO_INCREMENT_TYPES
        then lit " AUTO_INCREMENT" else [])
    ++ (if negb (Column.is_nullable column) then lit " NOT NULL" else [])
    ++ (if Column.is_unique column then lit " UNIQUE" else [])
    ++ (if truthy (Column.default_value column)
        then lit " DEFAULT " ++ get (Column.default_value column) else []).
Proof.
  unfold _generate_column_definition.
  rewrite _column_definition_parts_closed.
  column_flags column;
    simpl; rewrite ?app_nil_r; repeat (rewrite <- ?app_assoc; simpl);
    reflexivity.
Qed.

End AutoIncrementFacts.

(** ** CREATE TABLE *)

Section CreateTableFacts.
Context {U : Unicode}.
Import MySQLGenerator.

Lemma _generate_create_table_text (table : Table.t) :
  _generate_create_table table
  = lit "CREATE TABLE " ++ _sanitize_name (Table.name table) ++ lit " ("
    ++ nl ++ join (lit "," ++ nl) (_create_table_col_defs table)
    ++ nl ++ lit ") ENGINE=InnoDB DEFAULT CHARSET=utf8mb4;".
Proof.
  unfold _generate_create_table. simpl join.
  now rewrite <- !app_assoc.
Qed.

Lemma filter_singleton_In (A : Type) (p : A -> bool) (l : list A) (a c : A) :
  filter p l = [a] -> In c l -> p c = true -> c = a.
Proof.
  intros E Hin Hp.
  assert (H : In c (filter p l)) by (apply filter_In; auto).
  rewrite E in H. destruct H as [->|[]]. reflexivity.
Qed.

Lemma filter_singleton_holds (A : Type) (p : A -> bool) (l : list A) (a : A) :
  filter p l = [a] -> In a l /\ p a = true.
Proof.
  intros E. apply filter_In. rewrite E. now left.
Qed.

Lemma modifiers_count_table (l : list Column.t) :
  List.length
    (filter (eqb (lit "AUTO_INCREMENT"))
            (flat_map (fun c => skipn 2 (_column_definition_parts c)) l))
  = List.length
      (filter (fun c => Column.is_primary_key c
                        && mem (upper (Column.data_type c))
                               AUTO_INCREMENT_TYPES) l).
Proof.
  induction l as [|c l IH]; [reflexivity|].
  cbn [flat_map filter]. rewrite filter_app, length_app, IH.
  rewrite column_modifiers_count.
  destruct (Column.is_primary_key c
            && mem (upper (Column.data_type c)) AUTO_INCREMENT_TYPES);
    reflexivity.
Qed.

(** C4: with at least one primary-key column, the entries between the
    opening line and the trailer of the CREATE TABLE statement are the
    column definitions followed by exactly one PRIMARY KEY entry, which
    lists the sanitized names of the primary-key columns in column order;
    with none, they are the column definitions alone. *)
Theorem primary_key_constraint (table : Table.t) :
  let pks := filter Column.is_primary_key (Table.columns table) in
  let column_lines :=
    List.map (fun col => lit "    " ++ _generate_column_definition col)
             (Table.columns table) in
  let pk_line :=
    lit "    PRIMARY KEY ("
    ++ join (lit ", ") (List.map (fun pk => _sanitize_name (Column.name pk)) pks)
    ++ lit ")" in
  let statement col_defs :=
    lit "CREATE TABLE " ++ _sanitize_name (Table.name table) ++ lit " ("
    ++ nl ++ join (lit "," ++ nl) col_defs
    ++ nl ++ lit ") ENGINE=InnoDB DEFAULT CHARSET=utf8mb4;" in
  (pks <> [] ->
   _create_table_col_defs table = column_lines ++ [pk_line]
   /\ _generate_create_table table = statement (column_lines ++ [pk_line]))
  /\ (pks = [] ->
      _create_table_col_defs table = column_lines
      /\ _generate_create_table table = statement column_lines).
Proof.
  intros pks column_lines pk_line statement.
  subst statement. cbv beta.
  rewrite _generate_create_table_text, _create_table_col_defs_closed.
  fold column_lines. unfold Table.primary_keys. fold pks. fold pk_line.
  split; intros H.
  - destruct pks; [contradiction|]. split; reflexivity.
  - rewrite H, app_nil_r. split; reflexivity.
Qed.

End CreateTableFacts.

Section CreateTableRuns.
#[local] Existing Instance CPython.unicode.

Lemma primary_key_constraint_witness :
  MySQLGenerator._create_table_col_defs Examples.order_items
  = [ lit "    order_id INT AUTO_INCREMENT NOT NULL";
      lit "    line_no SMALLINT NOT NULL";
      lit "    note TEXT";
      lit "    PRIMARY KEY (order_id, line_no)" ]
  /\ MySQLGenerator._create_table_col_defs
       (Table.mk (lit "notes") [Examples.column "note" "text"] None)
     = [ lit "    note TEXT" ].
Proof.
  split.
  - destruct (proj1 (primary_key_constraint Examples.order_items)) as [E _].
    + vm_compute. discriminate.
    + rewrite E. reflexivity.
  - destruct (proj2 (primary_key_constraint
                       (Table.mk (lit "notes")
                                 [Examples.column "note" "text"] None)))
      as [E _].
    + reflexivity.
    + rewrite E. reflexivity.
Defined.

End CreateTableRuns.

(** ** AUTO_INCREMENT tokens in the statement text *)

Section TokenFacts.
Context {U : Unicode}.
Import MySQLGenerator Tokens.

Lemma tokens_nonempty (s : str) : tokens s <> [].
Proof.
  destruct s as [|c s]; simpl; [discriminate|].
  destruct (delimiter c); [discriminate|].
  destruct (tokens s); discriminate.
Qed.

Lemma tokens_app_delimiter (a b : str) (d : char) :
  delimiter d = true -> tokens (a ++ d :: b) = tokens a ++ tokens b.
Proof.
  intros Hd. induction a as [|c a IH]; simpl.
  - now rewrite Hd.
  - rewrite IH. destruct (delimiter c); [reflexivity|].
    pose proof (tokens_nonempty a) as Hne.
    destruct (tokens a); [contradiction | reflexivity].
Qed.

Lemma count_token_app_delimiter (t a b : str) (d : char) :
  delimiter d = true ->
  count_token t (a ++ d :: b) = (count_token t a + count_token t b)%nat.
Proof.
  intros Hd. unfold count_token.
  now rewrite tokens_app_delimiter, filter_app, length_app.
Qed.

Lemma count_token_nil (t : str) : t <> [] -> count_token t [] = 0%nat.
Proof. destruct t; [contradiction | reflexivity]. Qed.

Lemma count_token_delimiters (t ds s : str) :
  t <> [] -> forallb delimiter ds = true ->
  count_token t (ds ++ s) = count_token t s.
Proof.
  intros Ht. induction ds as [|d ds IH]; [reflexivity|].
  intros H. simpl in H. apply andb_true_iff in H. destruct H as [Hd Hds].
  change ((d :: ds) ++ s) with ([] ++ d :: (ds ++ s)).
  rewrite count_token_app_delimiter by assumption.
  now rewrite count_token_nil, IH.
Qed.

Lemma count_token_join (t : str) (d : char) (ds : str) (l : list str) :
  t <> [] -> delimiter d = true -> forallb delimiter ds = true ->
  count_token t (join (d :: ds) l) = list_sum (List.map (count_token t) l).
Proof.
  intros Ht Hd Hds. induction l as [|x l IH]; [now apply count_token_nil|].
  destruct l as [|y l].
  - simpl. lia.
  - change (join (d :: ds) (x :: y :: l))
      with (x ++ d :: (ds ++ join (d :: ds) (y :: l))).
    rewrite count_token_app_delimiter, count_token_delimiters by assumption.
    rewrite IH. reflexivity.
Qed.

Lemma keyword_nonempty : lit "AUTO_INCREMENT" <> [].
Proof. discriminate. Qed.

Lemma count_token_dialect_type (generic_type : str) :
  count_token (lit "AUTO_INCREMENT") (map_type generic_type) = 0%nat.
Proof.
  unfold map_type.
  pose proof (map_to_mysql_type_range generic_type) as H.
  revert H. generalize (TypeMapper.map_to_mysql_type generic_type).
  intros t H. simpl in H.
  repeat (destruct H as [<-|H]; [vm_compute; reflexivity|]).
  contradiction.
Qed.

(** The AUTO_INCREMENT tokens of a column definition: those of the
    sanitized name, the modifier, and those of the default value. *)
Lemma count_token_column_definition (column : Column.t) :
  count_token (lit "AUTO_INCREMENT") (_generate_column_definition column)
  = (count_token (lit "AUTO_INCREMENT")
                 (_sanitize_name (Column.name column))
     + (if Column.is_primary_key column
           && mem (upper (Column.data_type column)) AUTO_INCREMENT_TYPES
        then 1 else 0)
     + (if truthy (Column.default_value column)
        then count_token (lit "AUTO_INCREMENT")
                         (get (Column.default_value column))
        else 0))%nat.
Proof.
  unfold _generate_column_definition.
  change (lit " ") with [32].
  rewrite count_token_join by (reflexivity || apply keyword_nonempty).
  rewrite _column_definition_parts_closed.
  assert (Hdefault : forall v,
             count_token (lit "AUTO_INCREMENT") (lit "DEFAULT " ++ v)
             = count_token (lit "AUTO_INCREMENT") v).
  { intros v. change (lit "DEFAULT " ++ v) with (lit "DEFAULT" ++ 32 :: v).
    now rewrite count_token_app_delimiter. }
  column_flags column;
    cbn [List.map list_sum fold_right List.app];
    rewrite ?Hdefault, count_token_dialect_type;
    change (count_token (lit "AUTO_INCREMENT") (lit "AUTO_INCREMENT"))
      with 1%nat;
    change (count_token (lit "AUTO_INCREMENT") (lit "NOT NULL")) with 0%nat;
    change (count_token (lit "AUTO_INCREMENT") (lit "UNIQUE")) with 0%nat;
    lia.
Qed.

Lemma count_token_indented (s : str) :
  count_token (lit "AUTO_INCREMENT") (lit "    " ++ s)
  = count_token (lit "AUTO_INCREMENT") s.
Proof.
  apply count_token_delimiters; [apply keyword_nonempty | reflexivity].
Qed.

Lemma count_token_primary_key_line (names : list str) :
  count_token (lit "AUTO_INCREMENT")
              (lit "    PRIMARY KEY (" ++ join (lit ", ") names ++ lit ")")
  = list_sum (List.map (count_token (lit "AUTO_INCREMENT")) names).
Proof.
  change (lit "    PRIMARY KEY (" ++ join (lit ", ") names ++ lit ")")
    with (lit "    PRIMARY KEY"
          ++ 32 :: ([] ++ 40 :: (join [44; 32] names ++ 41 :: []))).
  rewrite !count_token_app_delimiter by reflexivity.
  rewrite count_token_join by (reflexivity || apply keyword_nonempty).
  rewrite count_token_nil by apply keyword_nonempty.
  change (count_token (lit "AUTO_INCREMENT") (lit "    PRIMARY KEY"))
    with 0%nat.
  lia.
Qed.

(** The AUTO_INCREMENT tokens of a CREATE TABLE statement: those of the
    sanitized table name and those of its entries. *)
Lemma count_token_create_table (table : Table.t) :
  count_token (lit "AUTO_INCREMENT") (_generate_create_table table)
  = (count_token (lit "AUTO_INCREMENT") (_sanitize_name (Table.name table))
     + list_sum (List.map (count_token (lit "AUTO_INCREMENT"))
                          (_create_table_col_defs table)))%nat.
Proof.
  rewrite _generate_create_table_text.
  change (lit "CREATE TABLE " ++ _sanitize_name (Table.name table)
          ++ lit " (" ++ nl
          ++ join (lit "," ++ nl) (_create_table_col_defs table)
          ++ nl ++ lit ") ENGINE=InnoDB DEFAULT CHARSET=utf8mb4;")
    with (lit "CREATE" ++ 32 :: (lit "TABLE" ++ 32 ::
          (_sanitize_name (Table.name table) ++ 32 :: ([] ++ 40 :: ([] ++ 10 ::
          (join [44; 10] (_create_table_col_defs table) ++ 10 ::
           lit ") ENGINE=InnoDB DEFAULT CHARSET=utf8mb4;")))))).
  rewrite !count_token_app_delimiter by reflexivity.
  rewrite count_token_join by (reflexivity || apply keyword_nonempty).
  rewrite count_token_nil by apply keyword_nonempty.
  change (count_token (lit "AUTO_INCREMENT") (lit "CREATE")) with 0%nat.
  change (count_token (lit "AUTO_INCREMENT") (lit "TABLE")) with 0%nat.
  change (count_token (lit "AUTO_INCREMENT")
                      (lit ") ENGINE=InnoDB DEFAULT CHARSET=utf8mb4;"))
    with 0%nat.
  lia.
Qed.

Lemma list_sum_zero (A : Type) (f : A -> nat) (l : list A) :
  (forall a, In a l -> f a = 0%nat) -> list_sum (List.map f l) = 0%nat.
Proof.
  induction l as [|a l IH]; intros H; [reflexivity|].
  simpl. rewrite (H a) by (simpl; auto).
  rewrite IH; [reflexivity|]. intros b Hb. apply H. simpl. auto.
Qed.

Lemma list_sum_indicator (A : Type) (p : A -> bool) (f : A -> nat)
      (l : list A) :
  (forall a, In a l -> f a = if p a then 1%nat else 0%nat) ->
  list_sum (List.map f l) = List.length (filter p l).
Proof.
  induction l as [|a l IH]; intros H; [reflexivity|].
  simpl. rewrite (H a) by (simpl; auto).
  rewrite IH by (intros b Hb; apply H; simpl; auto).
  destruct (p a); reflexivity.
Qed.

(** C3, as amended: a column definition carries the modifier
    AUTO_INCREMENT, right after the dialect type, if and only if the
    column is a primary key and its upper-cased abstract type is exactly
    INTEGER, INT or BIGINT; so in a table with exactly one such column,
    where no sanitized table or column name and no default value has
    AUTO_INCREMENT among its tokens, the text of the CREATE TABLE
    statement holds exactly one AUTO_INCREMENT token, and that token is
    on the line of that column. *)
Theorem auto_increment_tokens :
  (forall column,
      (In (lit "AUTO_INCREMENT") (skipn 2 (_column_definition_parts column))
       <-> Column.is_primary_key column = true
           /\ (upper (Column.data_type column) = lit "INTEGER"
               \/ upper (Column.data_type column) = lit "INT"
               \/ upper (Column.data_type column) = lit "BIGINT"))
      /\ _generate_column_definition column
         = _sanitize_name (Column.name column) ++ lit " "
           ++ map_type (Column.data_type column)
           ++ (if Column.is_primary_key column
                  && mem (upper (Column.data_type column))
                         AUTO_INCREMENT_TYPES
               then lit " AUTO_INCREMENT" else [])
           ++ (if negb (Column.is_nullable column)
               then lit " NOT NULL" else [])
           ++ (if Column.is_unique column then lit " UNIQUE" else [])
           ++ (if truthy (Column.default_value column)
               then lit " DEFAULT " ++ get (Column.default_value column)
               else []))
  /\ (forall table col,
         filter (fun c => Column.is_primary_key c
                          && mem (upper (Column.data_type c))
                                 AUTO_INCREMENT_TYPES)
                (Table.columns table) = [col] ->
         count_token (lit "AUTO_INCREMENT")
                     (_sanitize_name (Table.name table)) = 0%nat ->
         (forall c,
             In c (Table.columns table) ->
             count_token (lit "AUTO_INCREMENT")
                         (_sanitize_name (Column.name c)) = 0%nat
             /\ count_token (lit "AUTO_INCREMENT")
                            (get (Column.default_value c)) = 0%nat) ->
         count_token (lit "AUTO_INCREMENT") (_generate_create_table table)
         = 1%nat
         /\ (forall c,
                In c (Table.columns table) ->
                (count_token (lit "AUTO_INCREMENT")
                             (lit "    " ++ _generate_column_definition c)
                 = if Column.is_primary_key c
                      && mem (upper (Column.data_type c))
                             AUTO_INCREMENT_TYPES
                   then 1%nat else 0%nat)
                /\ (Column.is_primary_key c
                    && mem (upper (Column.data_type c)) AUTO_INCREMENT_TYPES
                    = true <-> c = col))
         /\ count_token (lit "AUTO_INCREMENT")
                        (lit "    " ++ _generate_column_definition col)
            = 1%nat).
Proof.
  split.
  - intros column. split.
    + rewrite column_modifiers_auto_increment, <- mem_In,
        AUTO_INCREMENT_TYPES_spec. reflexivity.
    + apply _generate_column_definition_text.
  - intros table col Hone Htable Hclean.
    destruct (@filter_singleton_holds _ _ _ _ Hone) as [Hin Hq].
    assert (Hline : forall c,
               In c (Table.columns table) ->
               count_token (lit "AUTO_INCREMENT")
                           (lit "    " ++ _generate_column_definition c)
               = if Column.is_primary_key c
                    && mem (upper (Column.data_type c)) AUTO_INCREMENT_TYPES
                 then 1%nat else 0%nat).
    { intros c Hc. destruct (Hclean c Hc) as [Hn Hd].
      rewrite count_token_indented, count_token_column_definition, Hn, Hd.
      destruct (Column.is_primary_key c
                && mem (upper (Column.data_type c)) AUTO_INCREMENT_TYPES),
               (truthy (Column.default_value c)); reflexivity. }
    split; [|split].
    + rewrite count_token_create_table, Htable,
        _create_table_col_defs_closed.
      rewrite map_app, list_sum_app, map_map.
      rewrite (list_sum_indicator
                 (fun c => Column.is_primary_key c
                           && mem (upper (Column.data_type c))
                                  AUTO_INCREMENT_TYPES)
                 _ _ Hline).
      rewrite Hone.
      assert (Hpk : list_sum
                      (List.map
                         (count_token (lit "AUTO_INCREMENT"))
                         (List.map (fun pk => _sanitize_name (Column.name pk))
                                   (Table.primary_keys table))) = 0%nat).
      { rewrite map_map. apply list_sum_zero. intros c Hc.
        apply Hclean. unfold Table.primary_keys in Hc.
        apply filter_In in Hc. tauto. }
      remember (List.map (fun pk => _sanitize_name (Column.name pk))
                         (Table.primary_keys table)) as names eqn:Enames.
      clear Enames.
      destruct (Table.primary_keys table) as [|pk pks]; [reflexivity|].
      cbn [List.map list_sum fold_right].
      rewrite count_token_primary_key_line, Hpk. reflexivity.
    + intros c Hc. split; [now apply Hline|].
      split.
      * intros H. apply (@filter_singleton_In _ _ _ _ _ Hone Hc H).
      * intros ->. exact Hq.
    + rewrite (Hline col Hin), Hq. reflexivity.
Qed.

End TokenFacts.

Section TokenRuns.
Import Tokens.
#[local] Existing Instance CPython.unicode.

Lemma auto_increment_tokens_witness :
  count_token (lit "AUTO_INCREMENT")
              (MySQLGenerator._generate_create_table Examples.order_items)
  = 1%nat
  /\ MySQLGenerator._generate_column_definition
       (Examples.primary (Examples.column "order_id" "int"))
     = lit "order_id INT AUTO_INCREMENT NOT NULL"
  /\ MySQLGenerator._generate_column_definition
       (Examples.primary (Examples.column "id" "int unsigned"))
     = lit "id VARCHAR(255) NOT NULL".
Proof.
  split; [|split; reflexivity].
  apply (proj2 auto_increment_tokens
               Examples.order_items
               (Examples.primary (Examples.column "order_id" "int"))).
  - reflexivity.
  - reflexivity.
  - intros c [<-|[<-|[<-|[]]]]; split; reflexivity.
Defined.

(** C3, as stated, fails on a table with one integer primary key and a
    second column whose name is AUTO_INCREMENT: the text of its CREATE
    TABLE statement holds the token twice, once as the modifier of the
    key and once as the name of the other column. *)
Lemma auto_increment_token_twice :
  filter (fun c => Column.is_primary_key c
                   && mem (upper (Column.data_type c)) AUTO_INCREMENT_TYPES)
         (Table.columns keyword_named_column)
  = [Examples.primary (Examples.column "id" "INT")]
  /\ MySQLGenerator._generate_create_table keyword_named_column
     = lit "CREATE TABLE counters (" ++ nl
       ++ lit "    id INT AUTO_INCREMENT NOT NULL," ++ nl
       ++ lit "    AUTO_INCREMENT VARCHAR(255)," ++ nl
       ++ lit "    PRIMARY KEY (id)" ++ nl
       ++ lit ") ENGINE=InnoDB DEFAULT CHARSET=utf8mb4;"
  /\ count_token (lit "AUTO_INCREMENT")
                 (MySQLGenerator._generate_create_table keyword_named_column)
     = 2%nat
  /\ count_token (lit "AUTO_INCREMENT")
                 (MySQLGenerator._generate_create_table keyword_named_column)
     <> 1%nat.
Proof.
  repeat split. vm_compute. discriminate.
Qed.

End TokenRuns.

(** ** SMALLINT keys *)

Section SmallintFacts.
Context {U : Unicode}.
Import MySQLGenerator.

(** C10: in both generators AUTO_INCREMENT is given exactly to the
    primary-key columns whose upper-cased abstract type is INTEGER, INT
    or BIGINT; a column whose upper-cased abstract type is SMALLINT gets
    it in neither, primary key or not, although the Type Mapper's table
    has SMALLINT as a key and maps it to the dialect type SMALLINT. *)
Theorem smallint_key_not_auto_increment (col : Column.t) :
  (In (lit "AUTO_INCREMENT") (skipn 2 (_column_definition_parts col))
   <-> Column.is_primary_key col = true
       /\ In (upper (Column.data_type col))
             [lit "INTEGER"; lit "INT"; lit "BIGINT"])
  /\ (In (lit "AUTO_INCREMENT") (PhysicalERDGenerator._column_constraints col)
      <-> Column.is_primary_key col = true
          /\ In (upper (Column.data_type col))
                [lit "INTEGER"; lit "INT"; lit "BIGINT"])
  /\ (upper (Column.data_type col) = lit "SMALLINT" ->
      ~ In (lit "AUTO_INCREMENT") (skipn 2 (_column_definition_parts col))
      /\ ~ In (lit "AUTO_INCREMENT")
              (PhysicalERDGenerator._column_constraints col)
      /\ In (lit "SMALLINT", lit "SMALLINT") TypeMapper.MYSQL_TYPE_MAP
      /\ TypeMapper.map_to_mysql_type (Column.data_type col) = lit "SMALLINT"
      /\ _generate_column_definition col
         = _sanitize_name (Column.name col) ++ lit " SMALLINT"
           ++ (if negb (Column.is_nullable col) then lit " NOT NULL" else [])
           ++ (if Column.is_unique col then lit " UNIQUE" else [])
           ++ (if truthy (Column.default_value col)
               then lit " DEFAULT " ++ get (Column.default_value col)
               else [])).
Proof.
  split; [apply column_modifiers_auto_increment|].
  split; [apply column_constraints_auto_increment|].
  intros Hsmall.
  assert (Hnot : ~ In (upper (Column.data_type col)) AUTO_INCREMENT_TYPES).
  { rewrite Hsmall. unfold AUTO_INCREMENT_TYPES. simpl.
    intros [H|[H|[H|[]]]]; apply lit_inj in H; discriminate. }
  assert (Hmem : mem (upper (Column.data_type col)) AUTO_INCREMENT_TYPES
                 = false).
  { destruct (mem _ _) eqn:E; [apply mem_In in E; tauto | reflexivity]. }
  assert (Hmap : TypeMapper.map_to_mysql_type (Column.data_type col)
                 = lit "SMALLINT").
  { unfold TypeMapper.map_to_mysql_type. now rewrite Hsmall. }
  split; [rewrite column_modifiers_auto_increment; tauto|].
  split; [rewrite column_constraints_auto_increment; tauto|].
  split; [unfold TypeMapper.MYSQL_TYPE_MAP; simpl; tauto|].
  split; [exact Hmap|].
  rewrite _generate_column_definition_text.
  unfold map_type. rewrite Hmap, Hmem, andb_false_r. reflexivity.
Qed.

End SmallintFacts.

Section SmallintRuns.
#[local] Existing Instance CPython.unicode.

Lemma smallint_key_not_auto_increment_witness :
  let line_no := Examples.primary (Examples.column "line_no" "smallint") in
  ~ In (lit "AUTO_INCREMENT")
       (skipn 2 (MySQLGenerator._column_definition_parts line_no))
  /\ ~ In (lit "AUTO_INCREMENT")
          (PhysicalERDGenerator._column_constraints line_no)
  /\ MySQLGenerator._generate_column_definition line_no
     = lit "line_no SMALLINT NOT NULL"
  /\ PhysicalERDGenerator._generate_column_line line_no
     = lit "SMALLINT LINE_NO PK " ++ dquote ++ lit "NOT NULL" ++ dquote.
Proof.
  intros line_no.
  assert (Hsmall : upper (Column.data_type line_no) = lit "SMALLINT")
    by reflexivity.
  destruct (proj2 (proj2 (smallint_key_not_auto_increment line_no)) Hsmall)
    as (H1 & H2 & _ & _ & H3).
  split; [exact H1 | split; [exact H2 | split]].
  - rewrite H3. reflexivity.
  - reflexivity.
Defined.

End SmallintRuns.

(** ** The ERD text *)

Section ERDFacts.
Context {U : Unicode}.
Import PhysicalERDGenerator.

Lemma _generate_entity_text (table : Table.t) :
  _generate_entity table
  = lit "    " ++ _sanitize_name (Table.name table) ++ lit " {" ++ nl
    ++ List.concat (List.map (fun col => lit "        "
                                    ++ _generate_column_line col ++ nl)
                        (Table.columns table))
    ++ lit "    }" ++ nl ++ nl.
Proof.
  unfold _generate_entity.
  rewrite fold_left_append
    with (g := fun col => lit "        " ++ _generate_column_line col ++ nl);
    [|reflexivity].
  rewrite flat_map_concat_map, <- !app_assoc. reflexivity.
Qed.

Lemma _generate_relationships_text (table : Table.t) :
  _generate_relationships table
  = List.concat (List.map (relationship_line table) (relationship_columns table)).
Proof.
  unfold _generate_relationships, relationship_columns.
  rewrite fold_left_append
    with (g := fun fk_col =>
                 if truthy (Column.references_table fk_col)
                 then relationship_line table fk_col else []).
  - simpl. induction (Table.foreign_keys table) as [|c l IH];
      [reflexivity|].
    simpl. rewrite IH.
    destruct (truthy (Column.references_table c)); reflexivity.
  - intros acc fk_col.
    destruct (truthy (Column.references_table fk_col)); simpl;
      now rewrite ?app_nil_r.
Qed.

Lemma relationship_columns_filter (table : Table.t) :
  relationship_columns table
  = filter (fun c => Column.is_foreign_key c
                     && truthy (Column.references_table c))
           (Table.columns table).
Proof.
  unfold relationship_columns, Table.foreign_keys.
  induction (Table.columns table) as [|c l IH]; [reflexivity|].
  simpl. destruct (Column.is_foreign_key c); simpl; rewrite IH; reflexivity.
Qed.

Lemma relationship_lines_concat (tables : list Table.t) :
  List.concat (List.map _generate_relationships tables)
  = List.concat
      (flat_map (fun table => List.map (relationship_line table)
                                       (relationship_columns table))
                tables).
Proof.
  induction tables as [|t l IH]; [reflexivity|].
  simpl. rewrite concat_app, IH, _generate_relationships_text. reflexivity.
Qed.

Lemma generate_mermaid_text (metadata : Metadata.t) :
  generate_mermaid metadata
  = lit "erDiagram" ++ nl ++ nl
    ++ List.concat (List.map _generate_entity
                        (List.map snd (Metadata.tables metadata)))
    ++ List.concat (relationship_lines metadata).
Proof.
  unfold generate_mermaid, relationship_lines.
  rewrite fold_left_append
    with (g := fun p => _generate_relationships (snd p));
    [|intros acc [table_name table]; reflexivity].
  rewrite fold_left_append with (g := fun p => _generate_entity (snd p));
    [|intros acc [table_name table]; reflexivity].
  rewrite <- relationship_lines_concat.
  rewrite !flat_map_concat_map, !map_map, <- !app_assoc.
  reflexivity.
Qed.

Lemma count_token_relationship_line
      (table : Table.t) (fk_col : Column.t) (rest : str) :
  Tokens.count_token (lit "||--o{") (relationship_line table fk_col ++ rest)
  = (Tokens.count_token
       (lit "||--o{") (_sanitize_name (get (Column.references_table fk_col)))
     + 1
     + Tokens.count_token (lit "||--o{") (_sanitize_name (Table.name table))
     + Tokens.count_token (lit "||--o{") rest)%nat.
Proof.
  unfold relationship_line. cbv zeta.
  generalize (_sanitize_name (get (Column.references_table fk_col))) as f,
             (_sanitize_name (Table.name table)) as t.
  intros f t. rewrite <- !app_assoc.
  change (lit "    " ++ f ++ lit " ||--o{ " ++ t ++ lit " : " ++ dquote
          ++ lit "FK, ON DELETE CASCADE" ++ dquote ++ nl ++ rest)
    with (lit "    "
          ++ (f ++ 32 :: (lit "||--o{" ++ 32 :: (t ++ 32 :: (lit ":" ++ 32 ::
              ((dquote ++ lit "FK") ++ 44 :: ([] ++ 32 :: (lit "ON" ++ 32 ::
               (lit "DELETE" ++ 32 :: ((lit "CASCADE" ++ dquote) ++ 10 ::
                rest)))))))))).
  rewrite count_token_delimiters by (reflexivity || discriminate).
  rewrite !count_token_app_delimiter by reflexivity.
  rewrite count_token_nil by discriminate.
  change (Tokens.count_token (lit "||--o{") (lit "||--o{")) with 1%nat.
  change (Tokens.count_token (lit "||--o{") (lit ":")) with 0%nat.
  change (Tokens.count_token (lit "||--o{") (dquote ++ lit "FK")) with 0%nat.
  change (Tokens.count_token (lit "||--o{") (lit "ON")) with 0%nat.
  change (Tokens.count_token (lit "||--o{") (lit "DELETE")) with 0%nat.
  change (Tokens.count_token (lit "||--o{") (lit "CASCADE" ++ dquote))
    with 0%nat.
  lia.
Qed.

(** C5: the diagram source is the header, then the entity blocks of the
    tables in the order of the Metadata, each with its column lines in
    declaration order, then the relationship lines, each the referenced
    entity, the arrow, the owning entity and the label, ended by a line
    break; there is one relationship line for each foreign-key-flagged
    column with [references_table] set, [references_column] playing no
    part, and, where no entity name holds the arrow, the text after the
    entity blocks holds the arrow that many times. *)
Theorem erd_entities_then_relationships (metadata : Metadata.t) :
  let tables := List.map snd (Metadata.tables metadata) in
  let drawn table :=
    filter (fun c => Column.is_foreign_key c
                     && truthy (Column.references_table c))
           (Table.columns table) in
  let line table fk_col :=
    lit "    " ++ _sanitize_name (get (Column.references_table fk_col))
    ++ lit " ||--o{ " ++ _sanitize_name (Table.name table)
    ++ lit " : " ++ dquote ++ lit "FK, ON DELETE CASCADE" ++ dquote ++ nl in
  let lines :=
    flat_map (fun table => List.map (line table) (drawn table)) tables in
  generate_mermaid metadata
  = lit "erDiagram" ++ nl ++ nl
    ++ List.concat (List.map _generate_entity tables)
    ++ List.concat lines
  /\ (forall table,
         _generate_entity table
         = lit "    " ++ _sanitize_name (Table.name table) ++ lit " {" ++ nl
           ++ List.concat (List.map (fun col => lit "        "
                                           ++ _generate_column_line col ++ nl)
                               (Table.columns table))
           ++ lit "    }" ++ nl ++ nl)
  /\ relationship_lines metadata = lines
  /\ List.length lines
     = List.length
         (filter (fun c => Column.is_foreign_key c
                           && truthy (Column.references_table c))
                 (flat_map Table.columns tables))
  /\ ((forall table,
          In table tables ->
          Tokens.count_token (lit "||--o{")
                             (_sanitize_name (Table.name table)) = 0%nat
          /\ forall c,
              In c (drawn table) ->
              Tokens.count_token
                (lit "||--o{")
                (_sanitize_name (get (Column.references_table c))) = 0%nat) ->
      Tokens.count_token (lit "||--o{") (List.concat lines)
      = List.length lines).
Proof.
  intros tables drawn line lines.
  assert (E : relationship_lines metadata = lines).
  { unfold relationship_lines. fold tables. subst lines.
    apply flat_map_ext. intros t. now rewrite relationship_columns_filter. }
  split; [rewrite <- E; apply generate_mermaid_text|].
  split; [apply _generate_entity_text|].
  split; [exact E|].
  split.
  - subst lines. clear E.
    induction tables as [|t l IH]; [reflexivity|].
    simpl. rewrite filter_app, !length_app, length_map, IH. reflexivity.
  - subst lines. clear E. intros Hclean.
    induction tables as [|t l IH]; [reflexivity|].
    cbn [flat_map]. rewrite concat_app, length_app, length_map.
    destruct (Hclean t (or_introl eq_refl)) as [Ht Hcols].
    assert (IH' : Tokens.count_token
                    (lit "||--o{")
                    (List.concat
                       (flat_map (fun table =>
                                    List.map (line table) (drawn table)) l))
                  = List.length
                      (flat_map (fun table =>
                                   List.map (line table) (drawn table)) l)).
    { apply IH. intros t' Ht'. apply Hclean. now right. }
    rewrite <- IH'. clear IH IH' Hclean.
    generalize (List.concat
                  (flat_map (fun table =>
                               List.map (line table) (drawn table)) l))
      as rest.
    intros rest.
    induction (drawn t) as [|c cs IHc]; [reflexivity|].
    cbn [List.map List.concat List.length].
    rewrite <- app_assoc.
    change (line t c) with (relationship_line t c).
    rewrite count_token_relationship_line, Ht, (Hcols c (or_introl eq_refl)).
    rewrite IHc by (intros c' Hc'; apply Hcols; now right).
    lia.
Qed.

End ERDFacts.

(** ** Whole scripts *)

Section ScriptFacts.
Context {U : Unicode}.
Import MySQLGenerator.

Lemma ddl_statements_groups (metadata : Metadata.t) :
  let tables := List.map snd (Metadata.tables metadata) in
  ddl_statements metadata
  = List.map _generate_create_table tables
    ++ flat_map _generate_foreign_keys tables
    ++ flat_map _generate_indexes tables.
Proof.
  intros tables. unfold ddl_statements. fold tables.
  rewrite fold_left_append with (g := _generate_indexes); [|reflexivity].
  rewrite fold_left_append with (g := _generate_foreign_keys);
    [|reflexivity].
  rewrite fold_left_append with (g := fun t => [_generate_create_table t]);
    [|reflexivity].
  rewrite flat_map_singleton, <- app_assoc. reflexivity.
Qed.

Lemma Forall_flat_map (A B : Type) (P : B -> Prop) (f : A -> list B)
      (l : list A) :
  (forall a, Forall P (f a)) -> Forall P (flat_map f l).
Proof.
  intros H. induction l as [|a l IH]; simpl; [constructor|].
  apply Forall_app. auto.
Qed.

End ScriptFacts.

Section ScriptRuns.
#[local] Existing Instance CPython.unicode.

Example ddl_statements_shop :
  MySQLGenerator.ddl_statements Examples.shop
  = [ lit "CREATE TABLE customers (" ++ nl
      ++ lit "    id INT AUTO_INCREMENT NOT NULL," ++ nl
      ++ lit "    name VARCHAR(255) NOT NULL," ++ nl
      ++ lit "    email VARCHAR(255) UNIQUE," ++ nl
      ++ lit "    PRIMARY KEY (id)" ++ nl
      ++ lit ") ENGINE=InnoDB DEFAULT CHARSET=utf8mb4;";
      lit "CREATE TABLE orders (" ++ nl
      ++ lit "    id INT AUTO_INCREMENT NOT NULL," ++ nl
      ++ lit "    region_id INT," ++ nl
      ++ lit "    customer_id INT," ++ nl
      ++ lit "    PRIMARY KEY (id)" ++ nl
      ++ lit ") ENGINE=InnoDB DEFAULT CHARSET=utf8mb4;";
      lit "ALTER TABLE orders ADD CONSTRAINT fk_orders_2 FOREIGN KEY (customer_id) REFERENCES customers(id) ON DELETE CASCADE ON UPDATE CASCADE;";
      lit "CREATE INDEX idx_orders_region_id ON orders(region_id);";
      lit "CREATE INDEX idx_orders_customer_id ON orders(customer_id);" ].
Proof. vm_compute. reflexivity. Qed.

Lemma erd_entities_then_relationships_witness :
  PhysicalERDGenerator.generate_mermaid Examples.shop
  = lit "erDiagram" ++ nl ++ nl
    ++ lit "    CUSTOMERS {" ++ nl
    ++ lit "        INT ID PK " ++ dquote ++ lit "AUTO_INCREMENT, NOT NULL"
    ++ dquote ++ nl
    ++ lit "        VARCHAR_255 NAME " ++ dquote ++ lit "NOT NULL"
    ++ dquote ++ nl
    ++ lit "        VARCHAR_255 EMAIL " ++ dquote ++ lit "UNIQUE"
    ++ dquote ++ nl
    ++ lit "    }" ++ nl ++ nl
    ++ lit "    ORDERS {" ++ nl
    ++ lit "        INT ID PK " ++ dquote ++ lit "AUTO_INCREMENT, NOT NULL"
    ++ dquote ++ nl
    ++ lit "        INT REGION_ID FK " ++ dquote ++ lit "INDEX" ++ dquote ++ nl
    ++ lit "        INT CUSTOMER_ID FK " ++ dquote ++ lit "INDEX" ++ dquote
    ++ nl
    ++ lit "    }" ++ nl ++ nl
    ++ lit "    REGIONS ||--o{ ORDERS : " ++ dquote
    ++ lit "FK, ON DELETE CASCADE" ++ dquote ++ nl
    ++ lit "    CUSTOMERS ||--o{ ORDERS : " ++ dquote
    ++ lit "FK, ON DELETE CASCADE" ++ dquote ++ nl
  /\ PhysicalERDGenerator.relationship_lines Examples.shop
     = [ lit "    REGIONS ||--o{ ORDERS : " ++ dquote
         ++ lit "FK, ON DELETE CASCADE" ++ dquote ++ nl;
         lit "    CUSTOMERS ||--o{ ORDERS : " ++ dquote
         ++ lit "FK, ON DELETE CASCADE" ++ dquote ++ nl ]
  /\ Tokens.count_token
       (lit "||--o{")
       (List.concat (PhysicalERDGenerator.relationship_lines Examples.shop))
     = 2%nat.
Proof.
  destruct (erd_entities_then_relationships Examples.shop)
    as (Htext & _ & Hlines & _ & Hcount).
  split; [rewrite Htext; reflexivity|].
  split; [rewrite Hlines; reflexivity|].
  rewrite Hlines, Hcount; [reflexivity|].
  intros table [<-|[<-|[]]]; (split; [reflexivity|]).
  - intros c [].
  - intros c [<-|[<-|[]]]; reflexivity.
Defined.

Example generate_mermaid_shop :
  PhysicalERDGenerator.generate_mermaid Examples.shop
  = lit "erDiagram" ++ nl ++ nl
    ++ lit "    CUSTOMERS {" ++ nl
    ++ lit "        INT ID PK " ++ dquote ++ lit "AUTO_INCREMENT, NOT NULL"
    ++ dquote ++ nl
    ++ lit "        VARCHAR_255 NAME " ++ dquote ++ lit "NOT NULL"
    ++ dquote ++ nl
    ++ lit "        VARCHAR_255 EMAIL " ++ dquote ++ lit "UNIQUE"
    ++ dquote ++ nl
    ++ lit "    }" ++ nl ++ nl
    ++ lit "    ORDERS {" ++ nl
    ++ lit "        INT ID PK " ++ dquote ++ lit "AUTO_INCREMENT, NOT NULL"
    ++ dquote ++ nl
    ++ lit "        INT REGION_ID FK " ++ dquote ++ lit "INDEX" ++ dquote ++ nl
    ++ lit "        INT CUSTOMER_ID FK " ++ dquote ++ lit "INDEX" ++ dquote
    ++ nl
    ++ lit "    }" ++ nl ++ nl
    ++ lit "    REGIONS ||--o{ ORDERS : " ++ dquote
    ++ lit "FK, ON DELETE CASCADE" ++ dquote ++ nl
    ++ lit "    CUSTOMERS ||--o{ ORDERS : " ++ dquote
    ++ lit "FK, ON DELETE CASCADE" ++ dquote ++ nl.
Proof. vm_compute. reflexivity. Qed.

End ScriptRuns.

(** * Further properties of the generators *)

(** ** Type Mapper: unrecognized and recognized types *)

Section TypeMapperMore.
Context {U : Unicode}.
Import TypeMapper.

Lemma MYSQL_TYPE_MAP_keys_letters (k : str) :
  dict_has MYSQL_TYPE_MAP k = true ->
  k <> [] /\ forallb (fun c => (65 <=? c) && (c <=? 90)) k = true.
Proof.
  unfold dict_has. rewrite mem_In. unfold MYSQL_TYPE_MAP. simpl.
  intros H.
  repeat (destruct H as [<-|H]; [split; [discriminate | reflexivity]|]).
  contradiction.
Qed.

(** X1: an abstract type whose upper-cased form is empty or holds any
    character other than the letters A to Z is mapped to the fallback
    [VARCHAR(255)]; so a type given with a size or precision, such as
    [varchar(50)] or [decimal(10,2)], loses it. *)
Theorem map_to_mysql_type_sized_falls_back (x : str) :
  upper x = [] \/ (exists c, In c (upper x) /\ (c < 65 \/ 90 < c)) ->
  map_to_mysql_type x = lit "VARCHAR(255)".
Proof.
  intros H. unfold map_to_mysql_type. apply dict_get_default.
  destruct (dict_has MYSQL_TYPE_MAP (upper x)) eqn:E; [|reflexivity].
  apply MYSQL_TYPE_MAP_keys_letters in E. destruct E as [Hne Hall].
  destruct H as [H|(c & Hc & Hout)]; [contradiction|].
  rewrite forallb_forall in Hall. specialize (Hall c Hc).
  apply andb_true_iff in Hall. destruct Hall as [H1 H2].
  apply N.leb_le in H1, H2. lia.
Qed.

(** X2: whatever the abstract type, the dialect type is one of fourteen
    strings; in particular it is never empty. *)
Theorem map_to_mysql_type_dialect_types (x : str) :
  In (map_to_mysql_type x)
     [ lit "INT"; lit "BIGINT"; lit "SMALLINT"; lit "VARCHAR(255)";
       lit "TEXT"; lit "CHAR"; lit "BOOLEAN"; lit "DATE"; lit "TIMESTAMP";
       lit "DATETIME"; lit "DECIMAL(18,2)"; lit "FLOAT"; lit "DOUBLE";
       lit "JSON" ]
  /\ map_to_mysql_type x <> [].
Proof.
  pose proof (map_to_mysql_type_range x) as H.
  revert H. generalize (map_to_mysql_type x). intros t H.
  simpl in H.
  repeat (destruct H as [<-|H];
          [split; [simpl; tauto | discriminate]|]).
  contradiction.
Qed.

End TypeMapperMore.

Section TypeMapperMoreRuns.
#[local] Existing Instance CPython.unicode.

Lemma map_to_mysql_type_sized_falls_back_witness :
  TypeMapper.map_to_mysql_type (lit "varchar(50)") = lit "VARCHAR(255)"
  /\ TypeMapper.map_to_mysql_type (lit "decimal(10,2)") = lit "VARCHAR(255)"
  /\ TypeMapper.map_to_mysql_type [] = lit "VARCHAR(255)".
Proof.
  split; [|split].
  - apply map_to_mysql_type_sized_falls_back. right. exists 40.
    split; [vm_compute; tauto | lia].
  - apply map_to_mysql_type_sized_falls_back. right. exists 44.
    split; [vm_compute; tauto | lia].
  - apply map_to_mysql_type_sized_falls_back. left. reflexivity.
Defined.

End TypeMapperMoreRuns.

(** ** The two generators side by side *)

Section SideBySide.
Context {U : Unicode}.
Import MySQLGenerator.

(** X3: the constraint tags of an ERD column line are the modifiers of
    the DDL column definition, in the same order, followed by [INDEX]
    when the column is flagged as a foreign key. *)
Theorem erd_constraints_follow_ddl (col : Column.t) :
  PhysicalERDGenerator._column_constraints col
  = skipn 2 (_column_definition_parts col)
    ++ (if Column.is_foreign_key col then [lit "INDEX"] else []).
Proof.
  rewrite _column_definition_parts_closed.
  unfold PhysicalERDGenerator._column_constraints.
  column_flags col; destruct (Column.is_foreign_key col); reflexivity.
Qed.

Lemma filter_length_split (A : Type) (p q : A -> bool) (l : list A) :
  List.length (filter p l)
  = (List.length (filter (fun a => p a && q a) l)
     + List.length (filter (fun a => p a && negb (q a)) l))%nat.
Proof.
  induction l as [|a l IH]; [reflexivity|].
  simpl. destruct (p a), (q a); simpl; lia.
Qed.

Lemma fk_emitted_columns (table : Table.t) :
  List.map snd (fk_emitted table)
  = filter fk_complete (Table.foreign_keys table).
Proof.
  unfold fk_emitted. generalize 1%nat.
  induction (Table.foreign_keys table) as [|c l IH]; intros start;
    [reflexivity|].
  simpl. destruct (fk_complete c); simpl; now rewrite IH.
Qed.

Lemma concat_map_In (A : Type) (f : A -> str) (l : list A) (a : A) :
  In a l ->
  exists before after, List.concat (List.map f l) = before ++ f a ++ after.
Proof.
  intros Hin. apply in_split in Hin. destruct Hin as (l1 & l2 & ->).
  exists (List.concat (List.map f l1)), (List.concat (List.map f l2)).
  rewrite map_app, concat_app. reflexivity.
Qed.

(** X4: for every table, the diagram draws a relationship for every
    foreign key the DDL constrains, and the DDL indexes every column the
    diagram draws a relationship for: each foreign-key statement is that
    of a foreign-key-flagged column with [references_table] set, and for
    each such column the relationship text holds its line and the index
    statements hold its CREATE INDEX statement; the relationship lines
    are as many as the foreign-key statements plus the foreign-key
    columns that name a table but no column, and at most as many as the
    index statements. *)
Theorem foreign_keys_drawn_and_indexed (table : Table.t) :
  let drawn :=
    filter (fun c => Column.is_foreign_key c
                     && truthy (Column.references_table c))
           (Table.columns table) in
  let line fk_col :=
    lit "    "
    ++ PhysicalERDGenerator._sanitize_name
         (get (Column.references_table fk_col))
    ++ lit " ||--o{ "
    ++ PhysicalERDGenerator._sanitize_name (Table.name table)
    ++ lit " : " ++ dquote ++ lit "FK, ON DELETE CASCADE" ++ dquote ++ nl in
  let index fk_col :=
    lit "CREATE INDEX idx_" ++ _sanitize_name (Table.name table) ++ lit "_"
    ++ _sanitize_name (Column.name fk_col) ++ lit " ON "
    ++ _sanitize_name (Table.name table) ++ lit "("
    ++ _sanitize_name (Column.name fk_col) ++ lit ");" in
  (forall stmt,
      In stmt (_generate_foreign_keys table) ->
      exists idx c,
        stmt = fk_stmt table idx c
        /\ nth_error (Table.foreign_keys table) (idx - 1) = Some c
        /\ In c drawn)
  /\ (forall c,
         In c drawn ->
         (exists before after,
             PhysicalERDGenerator._generate_relationships table
             = before ++ line c ++ after)
         /\ In (index c) (_generate_indexes table))
  /\ PhysicalERDGenerator._generate_relationships table
     = List.concat (List.map line drawn)
  /\ List.length drawn
     = (List.length (_generate_foreign_keys table)
        + List.length
            (filter (fun c => truthy (Column.references_table c)
                              && negb (truthy (Column.references_column c)))
                    (Table.foreign_keys table)))%nat
  /\ (List.length drawn <= List.length (_generate_indexes table))%nat.
Proof.
  intros drawn line index.
  assert (Hdrawn : PhysicalERDGenerator.relationship_columns table = drawn)
    by apply relationship_columns_filter.
  assert (Htext : PhysicalERDGenerator._generate_relationships table
                  = List.concat (List.map line drawn)).
  { rewrite _generate_relationships_text, Hdrawn. reflexivity. }
  split; [|split; [|split; [exact Htext | split]]].
  - intros stmt Hin. rewrite _generate_foreign_keys_emitted in Hin.
    apply in_map_iff in Hin. destruct Hin as ([idx c] & <- & Hin).
    apply fk_emitted_position in Hin. destruct Hin as (_ & Hnth & Hc).
    exists idx, c. split; [reflexivity|]. split; [exact Hnth|].
    rewrite <- Hdrawn. unfold PhysicalERDGenerator.relationship_columns.
    apply filter_In. split; [eapply nth_error_In; eauto|].
    unfold fk_complete in Hc. apply andb_true_iff in Hc. tauto.
  - intros c Hc. split.
    + rewrite Htext. now apply concat_map_In.
    + rewrite _generate_indexes_map.
      replace (index c) with (index_stmt table c)
        by (subst index; unfold index_stmt; cbv beta zeta;
            now rewrite <- !app_assoc).
      apply in_map.
      subst drawn. apply filter_In in Hc. destruct Hc as [Hc Hflags].
      apply andb_true_iff in Hflags.
      unfold Table.foreign_keys. apply filter_In. tauto.
  - rewrite <- Hdrawn.
    rewrite _generate_foreign_keys_emitted, length_map.
    rewrite <- (length_map snd), fk_emitted_columns.
    unfold PhysicalERDGenerator.relationship_columns.
    apply (filter_length_split
             (fun c => truthy (Column.references_table c))
             (fun c => truthy (Column.references_column c))).
  - rewrite <- Hdrawn, _generate_indexes_map, length_map.
    apply filter_length_le.
Qed.

(** X5: a table without columns still gets a CREATE TABLE statement,
    with an empty body and no PRIMARY KEY entry, and an entity block with
    no column line; it gets no foreign-key statement, no index statement
    and no relationship line. *)
Theorem table_without_columns (table : Table.t) :
  Table.columns table = [] ->
  _generate_create_table table
  = lit "CREATE TABLE " ++ _sanitize_name (Table.name table) ++ lit " ("
    ++ nl ++ nl ++ lit ") ENGINE=InnoDB DEFAULT CHARSET=utf8mb4;"
  /\ _generate_foreign_keys table = []
  /\ _generate_indexes table = []
  /\ PhysicalERDGenerator._generate_entity table
     = lit "    " ++ PhysicalERDGenerator._sanitize_name (Table.name table)
       ++ lit " {" ++ nl ++ lit "    }" ++ nl ++ nl
  /\ PhysicalERDGenerator._generate_relationships table = [].
Proof.
  intros H.
  rewrite _generate_create_table_text, _create_table_col_defs_closed.
  unfold _generate_foreign_keys, _generate_indexes,
    PhysicalERDGenerator._generate_entity,
    PhysicalERDGenerator._generate_relationships,
    Table.primary_keys, Table.foreign_keys.
  rewrite H. simpl. rewrite <- !app_assoc. repeat split.
Qed.

End SideBySide.

Section SideBySideRuns.
#[local] Existing Instance CPython.unicode.

Lemma table_without_columns_witness :
  MySQLGenerator._generate_create_table (Table.mk (lit "audit log") [] None)
  = lit "CREATE TABLE audit_log (" ++ nl ++ nl
    ++ lit ") ENGINE=InnoDB DEFAULT CHARSET=utf8mb4;"
  /\ PhysicalERDGenerator._generate_entity
       (Table.mk (lit "audit log") [] None)
     = lit "    AUDIT_LOG {" ++ nl ++ lit "    }" ++ nl ++ nl.
Proof.
  destruct (table_without_columns (Table.mk (lit "audit log") [] None)
                                  eq_refl) as (H1 & _ & _ & H2 & _).
  split; [rewrite H1 | rewrite H2]; reflexivity.
Defined.

End SideBySideRuns.

(** ** Statements that coincide *)

Section DistinctStatements.
Context {U : Unicode}.
Import MySQLGenerator.

Lemma app_same_length_inv (A : Type) (a b x y : list A) :
  List.length a = List.length b -> a ++ x = b ++ y -> a = b /\ x = y.
Proof.
  revert b. induction a as [|h a IH]; intros [|k b] Hlen E;
    simpl in *; try discriminate; [auto|].
  injection E as -> E. injection Hlen as Hlen.
  destruct (IH b Hlen E) as [-> ->]. auto.
Qed.

Lemma index_stmt_inj (table : Table.t) (c1 c2 : Column.t) :
  index_stmt table c1 = index_stmt table c2
  <-> _sanitize_name (Column.name c1) = _sanitize_name (Column.name c2).
Proof.
  unfold index_stmt. split; [|now intros ->].
  generalize (_sanitize_name (Column.name c1)) as n1,
             (_sanitize_name (Column.name c2)) as n2,
             (_sanitize_name (Table.name table)) as t.
  intros n1 n2 t E.
  rewrite <- !app_assoc in E.
  repeat apply app_inv_head in E.
  assert (Hlen : List.length n1 = List.length n2).
  { apply (f_equal (@List.length _)) in E.
    repeat (rewrite ?length_app in E; simpl in E). lia. }
  now apply app_same_length_inv in E.
Qed.

Lemma NoDup_map_same_kernel (A B C : Type) (f : A -> B) (g : A -> C)
      (l : list A) :
  (forall a b, f a = f b <-> g a = g b) ->
  NoDup (List.map f l) -> NoDup (List.map g l).
Proof.
  intros Hk. induction l as [|a l IH]; simpl; [constructor|].
  intros H. inversion H as [|? ? Hnotin Hnd]; subst.
  constructor; [|auto].
  intros Hin. apply Hnotin.
  apply in_map_iff in Hin. destruct Hin as (b & E & Hb).
  apply Hk in E. rewrite <- E. now apply in_map.
Qed.

(** X6: the index statements of a table are pairwise distinct exactly
    when the sanitized names of its foreign-key-flagged columns are; two
    such columns whose names differ only in characters that sanitization
    replaces get the same CREATE INDEX statement twice. *)
Theorem index_statements_distinct_iff (table : Table.t) :
  NoDup (_generate_indexes table)
  <-> NoDup (List.map (fun c => _sanitize_name (Column.name c))
                      (Table.foreign_keys table)).
Proof.
  rewrite _generate_indexes_map. split; apply NoDup_map_same_kernel.
  - intros a b. apply index_stmt_inj.
  - intros a b. symmetry. apply index_stmt_inj.
Qed.

Lemma uint_digits (d : Decimal.uint) :
  forallb (fun c => (48 <=? c) && (c <=? 57))
          (lit (NilEmpty.string_of_uint d)) = true.
Proof.
  induction d; simpl; try reflexivity; assumption.
Qed.

Lemma digits_prefix_inj (a b x y : str) :
  forallb (fun c => (48 <=? c) && (c <=? 57)) a = true ->
  forallb (fun c => (48 <=? c) && (c <=? 57)) b = true ->
  a ++ 32 :: x = b ++ 32 :: y -> a = b.
Proof.
  revert b. induction a as [|h a IH]; intros [|k b] Ha Hb E;
    simpl in *.
  - reflexivity.
  - injection E as <- _. discriminate.
  - injection E as -> _. discriminate.
  - injection E as -> E.
    apply andb_true_iff in Ha, Hb. f_equal. apply IH; tauto.
Qed.

Lemma fk_stmt_index_inj (table : Table.t) (i j : nat) (c1 c2 : Column.t) :
  fk_stmt table i c1 = fk_stmt table j c2 -> i = j.
Proof.
  unfold fk_stmt, fk_name. intros E.
  rewrite <- !app_assoc in E.
  repeat apply app_inv_head in E.
  apply of_nat_inj.
  unfold of_nat in *.
  eapply digits_prefix_inj; [| | exact E]; apply uint_digits.
Qed.

(** X7: no two foreign-key statements of a table are the same
    statement, whatever the names of its columns and of the tables they
    refer to. *)
Theorem foreign_key_statements_distinct (table : Table.t) :
  NoDup (_generate_foreign_keys table).
Proof.
  rewrite _generate_foreign_keys_emitted.
  pose proof (fk_emitted_indices_NoDup table) as Hnd.
  induction (fk_emitted table) as [|p l IH]; simpl; [constructor|].
  simpl in Hnd. inversion Hnd as [|? ? Hnotin Hnd']; subst.
  constructor; [|auto].
  intros Hin. apply Hnotin.
  apply in_map_iff in Hin. destruct Hin as (q & E & Hq).
  apply fk_stmt_index_inj in E. rewrite <- E. now apply in_map.
Qed.

End DistinctStatements.

Section DistinctStatementsRuns.
#[local] Existing Instance CPython.unicode.

(** Two foreign-key columns whose names sanitize alike. *)
Example index_statements_collide :
  let t := Table.mk (lit "orders")
                    [ Examples.references (Examples.column "ship-to" "INT")
                                          None None;
                      Examples.references (Examples.column "ship to" "INT")
                                          None None ]
                    None in
  MySQLGenerator._generate_indexes t
  = [ lit "CREATE INDEX idx_orders_ship_to ON orders(ship_to);";
      lit "CREATE INDEX idx_orders_ship_to ON orders(ship_to);" ].
Proof. reflexivity. Qed.

End DistinctStatementsRuns.

(** ** ERD identifiers *)

Section ErdIdentifiers.
Context {U : Unicode}.
Import PhysicalERDGenerator.

Lemma erd_name_cons (c : char) (x : str) :
  _sanitize_name (c :: x) = _sanitize_name [c] ++ _sanitize_name x.
Proof.
  unfold _sanitize_name, upper. simpl. now rewrite app_nil_r.
Qed.

Lemma erd_name_of_ascii_char (c : char) :
  (forall c, c < 128 ->
             isalnum c = CPython.isalnum c
             /\ upper_char c = CPython.upper_char c) ->
  c < 128 ->
  exists d, _sanitize_name [c] = [d]
            /\ (((65 <=? d) && (d <=? 90))
                || ((48 <=? d) && (d <=? 57))
                || (d =? underscore)) = true.
Proof.
  intros Hascii Hc. unfold _sanitize_name, upper. simpl.
  rewrite app_nil_r.
  destruct (Hascii c Hc) as [-> _].
  match goal with
  | |- context [upper_char ?k] =>
      assert (Hlt : k < 128)
        by (destruct (CPython.isalnum c || (c =? underscore));
            [assumption | reflexivity]);
      destruct (Hascii k Hlt) as [_ ->]; clear Hlt
  end.
  match goal with
  | |- context [CPython.upper_char ?k] =>
      assert (Hb : match CPython.upper_char k with
                   | [d] => ((65 <=? d) && (d <=? 90))
                            || ((48 <=? d) && (d <=? 57))
                            || (d =? underscore)
                   | _ => false
                   end = true);
        [ clear Hascii; revert c Hc; apply ascii_cases;
          vm_compute; reflexivity
        | destruct (CPython.upper_char k) as [|d [|? ?]];
          try discriminate; exists d; auto ]
  end.
Qed.

(** X8: where the character tables agree with ASCII, the ERD name of an
    ASCII name has the length of the name and consists of the capital
    letters A to Z, the digits and the underscore only. *)
Theorem erd_name_of_ascii_name (x : str) :
  (forall c, c < 128 ->
             isalnum c = CPython.isalnum c
             /\ upper_char c = CPython.upper_char c) ->
  forallb (fun c => c <? 128) x = true ->
  List.length (_sanitize_name x) = List.length x
  /\ forallb (fun c => ((65 <=? c) && (c <=? 90))
                       || ((48 <=? c) && (c <=? 57))
                       || (c =? underscore))
             (_sanitize_name x) = true.
Proof.
  intros Hascii.
  induction x as [|c x IH]; intros Hx; [split; reflexivity|].
  simpl in Hx. apply andb_true_iff in Hx. destruct Hx as [Hc Hx].
  destruct (IH Hx) as [IHlen IHall]. clear IH.
  apply N.ltb_lt in Hc.
  destruct (erd_name_of_ascii_char Hascii Hc) as (d & Hd & Hclass).
  rewrite erd_name_cons, Hd. simpl. rewrite IHlen, Hclass, IHall.
  split; reflexivity.
Qed.

End ErdIdentifiers.

Section ErdIdentifiersRuns.
#[local] Existing Instance CPython.unicode.

Lemma erd_name_of_ascii_name_witness :
  List.length (PhysicalERDGenerator._sanitize_name (lit "order-items 2024"))
  = 16%nat
  /\ PhysicalERDGenerator._sanitize_name (lit "order-items 2024")
     = lit "ORDER_ITEMS_2024".
Proof.
  split; [|reflexivity].
  apply (erd_name_of_ascii_name (lit "order-items 2024")).
  - intros c _. split; reflexivity.
  - reflexivity.
Defined.

End ErdIdentifiersRuns.

(** ** The page handed to the browser *)

Section CreateHtmlFacts.
Import MermaidRenderer.

Lemma firstn_length_app (A : Type) (a b : list A) :
  firstn (List.length a) (a ++ b) = a.
Proof. induction a as [|x a IH]; simpl; [reflexivity | now rewrite IH]. Qed.

Lemma _create_html_splice (content : str) :
  _create_html content
  = firstn 401 (_create_html []) ++ content ++ skipn 401 (_create_html []).
Proof. reflexivity. Qed.

(** X9: the page is a fixed text of 429 characters with the diagram
    source spliced in unchanged after its first 401 characters, nothing
    escaped; so the diagram source can be read back from the page, and
    different sources give different pages. *)
Theorem _create_html_embeds_verbatim (content : str) :
  _create_html content
  = firstn 401 (_create_html []) ++ content ++ skipn 401 (_create_html [])
  /\ List.length (_create_html content) = (List.length content + 429)%nat
  /\ firstn (List.length content) (skipn 401 (_create_html content))
     = content
  /\ forall other, _create_html other = _create_html content ->
                   other = content.
Proof.
  split; [apply _create_html_splice|].
  split; [|split].
  - rewrite _create_html_splice, !length_app.
    change (List.length (firstn 401 (_create_html []))) with 401%nat.
    change (List.length (skipn 401 (_create_html []))) with 28%nat.
    lia.
  - change (skipn 401 (_create_html content))
      with (content ++ skipn 401 (_create_html [])).
    apply firstn_length_app.
  - intros other E.
    rewrite (_create_html_splice other), (_create_html_splice content) in E.
    apply app_inv_head in E. now apply app_inv_tail in E.
Qed.

End CreateHtmlFacts.

(** ** The configured formats *)

Section ConfigFacts.
Import Config.

Lemma split_nonempty (sep : char) (s : str) : split sep s <> [].
Proof.
  destruct s as [|c s]; simpl; [discriminate|].
  destruct (c =? sep); [discriminate|].
  destruct (split sep s); discriminate.
Qed.

Lemma join_cons (sep x : str) (l : list str) :
  l <> [] -> join sep (x :: l) = x ++ sep ++ join sep l.
Proof. destruct l; [contradiction | reflexivity]. Qed.

Lemma join_split (sep : char) (s : str) : join [sep] (split sep s) = s.
Proof.
  induction s as [|c s IH]; [reflexivity|].
  simpl. destruct (c =? sep) eqn:E.
  - apply N.eqb_eq in E. subst c.
    rewrite join_cons by apply split_nonempty. now rewrite IH.
  - pose proof (split_nonempty sep s) as Hne.
    destruct (split sep s) as [|w ws]; [contradiction|].
    destruct ws as [|w' ws]; simpl in *.
    + now rewrite IH.
    + rewrite <- IH. reflexivity.
Qed.

Lemma split_fields (sep : char) (s : str) :
  Forall (fun field => ~ In sep field) (split sep s).
Proof.
  induction s as [|c s IH]; simpl.
  - constructor; [tauto | constructor].
  - destruct (c =? sep) eqn:E.
    + constructor; [tauto | assumption].
    + apply N.eqb_neq in E.
      destruct (split sep s) as [|w ws]; simpl.
      * constructor; [simpl; intuition congruence | constructor].
      * inversion IH; subst. constructor; [|assumption].
        simpl. intuition congruence.
Qed.

Lemma split_length (sep : char) (s : str) :
  List.length (split sep s) = S (count_occ N.eq_dec s sep).
Proof.
  induction s as [|c s IH]; [reflexivity|].
  simpl. destruct (c =? sep) eqn:E.
  - apply N.eqb_eq in E. subst c.
    destruct (N.eq_dec sep sep); [|contradiction]. simpl. now rewrite IH.
  - apply N.eqb_neq in E.
    destruct (N.eq_dec c sep); [contradiction|].
    pose proof (split_nonempty sep s) as Hne.
    destruct (split sep s) as [|w ws]; [contradiction|].
    simpl in *. assumption.
Qed.

Lemma split_field_app (sep : char) (field rest : str) :
  ~ In sep field ->
  split sep (field ++ sep :: rest) = field :: split sep rest.
Proof.
  induction field as [|c field IH]; intros Hnot; simpl.
  - now rewrite N.eqb_refl.
  - destruct (c =? sep) eqn:E.
    + apply N.eqb_eq in E. subst. simpl in Hnot. tauto.
    + rewrite IH by (simpl in Hnot; tauto). reflexivity.
Qed.

Lemma split_field (sep : char) (field : str) :
  ~ In sep field -> split sep field = [field].
Proof.
  induction field as [|c field IH]; intros Hnot; simpl; [reflexivity|].
  destruct (c =? sep) eqn:E.
  - apply N.eqb_eq in E. subst. simpl in Hnot. tauto.
  - rewrite IH by (simpl in Hnot; tauto). reflexivity.
Qed.

Lemma split_join (sep : char) (fields : list str) :
  fields <> [] ->
  Forall (fun field => ~ In sep field) fields ->
  split sep (join [sep] fields) = fields.
Proof.
  induction fields as [|f fields IH]; intros Hne Hall; [contradiction|].
  inversion Hall as [|? ? Hf Hrest]; subst.
  destruct fields as [|g fields].
  - simpl. now apply split_field.
  - rewrite join_cons by discriminate.
    change ([sep] ++ join [sep] (g :: fields))
      with (sep :: join [sep] (g :: fields)).
    rewrite split_field_app by assumption.
    rewrite IH; [reflexivity | discriminate | assumption].
Qed.

(** X10: the configured formats are the comma-separated fields of the
    environment's [ERD_FORMATS], or of [png,svg,pdf] when it is unset:
    joined by commas they give the value back, there is one more of them
    than the value has commas, and a format is configured exactly when
    it is one whole field, blanks and letter case included. *)
Theorem ERD_FORMATS_fields (env : option str) :
  let value := getenv env (lit "png,svg,pdf") in
  join (lit ",") (ERD_FORMATS env) = value
  /\ List.length (ERD_FORMATS env) = S (count_occ N.eq_dec value 44)
  /\ Forall (fun field => ~ In 44 field) (ERD_FORMATS env)
  /\ (forall format,
         In format (ERD_FORMATS env)
         <-> exists before after,
             Forall (fun field => ~ In 44 field)
                    (before ++ format :: after)
             /\ value = join (lit ",") (before ++ format :: after)).
Proof.
  intros value. unfold ERD_FORMATS. fold value.
  split; [apply join_split|].
  split; [apply split_length|].
  split; [apply split_fields|].
  intros format. split.
  - intros Hin. apply in_split in Hin. destruct Hin as (before & after & E).
    exists before, after. split.
    + rewrite <- E. apply split_fields.
    + rewrite <- E. symmetry. apply join_split.
  - intros (before & after & Hall & E).
    rewrite E.
    change (lit ",") with [44].
    rewrite split_join; [apply in_elt | | assumption].
    destruct before; discriminate.
Qed.

End ConfigFacts.

Example ERD_FORMATS_runs :
  Config.ERD_FORMATS None = [lit "png"; lit "svg"; lit "pdf"]
  /\ Config.ERD_FORMATS (Some (lit "png, svg")) = [lit "png"; lit " svg"]
  /\ Config.ERD_FORMATS (Some []) = [[]].
Proof. repeat split. Qed.

(** ** Rendering runs *)

(** Unfolds a rendering run down to the tests on the outcomes and on the
    configured formats. *)
Ltac render_steps :=
  cbv [MermaidRenderer.run MermaidRenderer.render_to_images
       MermaidRenderer.render_to_images_body
       MermaidRenderer.try_except_finally MermaidRenderer.bind
       MermaidRenderer.call MermaidRenderer.ret
       MermaidRenderer.assign_browser MermaidRenderer.returned
       MermaidRenderer.browser MermaidRenderer.trace
       MermaidRenderer.launch MermaidRenderer.newPage
       MermaidRenderer.setContent MermaidRenderer.waitForSelector
       MermaidRenderer.sleep
       MermaidRenderer.querySelector MermaidRenderer.screenshot
       MermaidRenderer.pdf MermaidRenderer.evaluate MermaidRenderer.svg
       MermaidRenderer.write_text MermaidRenderer.close
       fst snd].

(** Case analysis on a run, call by call in the order of the source:
    [done] closes every case in which the run is over. *)
Ltac render_cases l n sc w sl q sh p ev sv wt formats done :=
  (destruct l as [|[|]]; [|done|done]);
  (destruct n as [|[|]]; [|done|done]);
  (destruct sc as [|[|]]; [|done|done]);
  (destruct w as [|[|]]; [|done|done]);
  (destruct sl as [|[|]]; [|done|done]);
  (destruct q as [|[|]]; [|done|done]);
  (destruct (mem (lit "png") formats);
   [destruct sh as [|[|]]; [|done|done]|]);
  (destruct (mem (lit "pdf") formats);
   [destruct p as [|[|]]; [|done|done]|]);
  (destruct (mem (lit "svg") formats);
   [destruct ev as [|[|]];
    [destruct sv as [[|? ?]|];
     [done | destruct wt as [|[|]]; done | done]
    |done|done]
   |done]).

Section RenderingFacts.
Import MermaidRenderer.
Variable Path : Type.
Variable joinpath : Path -> str -> Path.
Variable ERD_FORMATS : list str.
Variable PUPPETEER_EXECUTABLE_PATH : option str.
Variable output_dir : Path.

(** X11: a rendering run returns its results exactly when every call it
    makes returns: the six page set-up calls, the screenshot, PDF and
    SVG calls of the configured formats, and the closing of the browser;
    the results then hold the configured ones of [png], [pdf] and [svg],
    in this order whatever the order of the configuration, [svg] only
    when the page had a non-empty SVG, each under the output directory
    as base name, dot, format; any other configured format is passed
    over without an error. *)
Theorem render_to_images_results
        (env : outcomes) (mermaid_content base_name : str) :
  let returns o := match o with Returns => true | Raises _ => false end in
  let svg_found :=
    match svg env with Some (_ :: _) => true | _ => false end in
  let all_return :=
    returns (launch env) && returns (newPage env)
    && returns (setContent env) && returns (waitForSelector env)
    && returns (sleep env) && returns (querySelector env)
    && (negb (mem (lit "png") ERD_FORMATS) || returns (screenshot env))
    && (negb (mem (lit "pdf") ERD_FORMATS) || returns (pdf env))
    && (negb (mem (lit "svg") ERD_FORMATS)
        || (returns (evaluate env)
            && (negb svg_found || returns (write_text env))))
    && returns (close env) in
  let results :=
    (if mem (lit "png") ERD_FORMATS
     then [(lit "png", joinpath output_dir (base_name ++ lit ".png"))]
     else [])
    ++ (if mem (lit "pdf") ERD_FORMATS
        then [(lit "pdf", joinpath output_dir (base_name ++ lit ".pdf"))]
        else [])
    ++ (if mem (lit "svg") ERD_FORMATS && svg_found
        then [(lit "svg", joinpath output_dir (base_name ++ lit ".svg"))]
        else []) in
  returned
    (fst (run (render_to_images joinpath ERD_FORMATS
                                PUPPETEER_EXECUTABLE_PATH output_dir env
                                mermaid_content base_name)))
  = if all_return then Some results else None.
Proof.
  destruct env as [l n sc w sl q sh p ev sv wt cl].
  render_steps.
  destruct cl as [|[|]];
    render_cases l n sc w sl q sh p ev sv wt ERD_FORMATS reflexivity.
Qed.

(** X12: on every run that got a browser, closing it is the last call
    made and is made once, whether the run returns or raises; a run
    whose launch raises returns nothing and makes no call on a page or a
    browser after it: it logs the error when what was raised is an
    [Exception], and nothing when it is another [BaseException]. *)
Theorem render_to_images_closes_browser
        (env : outcomes) (mermaid_content base_name : str) :
  let r := run (render_to_images joinpath ERD_FORMATS
                                 PUPPETEER_EXECUTABLE_PATH output_dir env
                                 mermaid_content base_name) in
  (launch env = Returns ->
   last (snd r) (LoggerInfo Path) = Close Path
   /\ ~ In (Close Path) (removelast (snd r)))
  /\ (forall e,
         launch env = Raises e ->
         fst r = Raise e
         /\ snd r
            = [ LoggerInfo Path;
                Launch Path (if truthy PUPPETEER_EXECUTABLE_PATH
                             then PUPPETEER_EXECUTABLE_PATH else None) ]
              ++ match e with
                 | AnException => [LoggerError Path]
                 | OtherBaseException => []
                 end).
Proof.
  destruct env as [l n sc w sl q sh p ev sv wt cl].
  render_steps.
  generalize (_create_html mermaid_content) as html,
             (lit "#mermaid-diagram") as selector,
             (joinpath output_dir (base_name ++ lit ".png")) as png_path,
             (joinpath output_dir (base_name ++ lit ".pdf")) as pdf_path,
             (joinpath output_dir (base_name ++ lit ".svg")) as svg_path,
             (if truthy PUPPETEER_EXECUTABLE_PATH
              then PUPPETEER_EXECUTABLE_PATH else None) as executablePath.
  intros html selector png_path pdf_path svg_path executablePath.
  split.
  - intros ->.
    destruct cl as [|[|]];
      (destruct n as [|[|]];
       [|split; [reflexivity | cbn; intuition discriminate]
        |split; [reflexivity | cbn; intuition discriminate]]);
      (destruct sc as [|[|]];
       [|split; [reflexivity | cbn; intuition discriminate]
        |split; [reflexivity | cbn; intuition discriminate]]);
      (destruct w as [|[|]];
       [|split; [reflexivity | cbn; intuition discriminate]
        |split; [reflexivity | cbn; intuition discriminate]]);
      (destruct sl as [|[|]];
       [|split; [reflexivity | cbn; intuition discriminate]
        |split; [reflexivity | cbn; intuition discriminate]]);
      (destruct q as [|[|]];
       [|split; [reflexivity | cbn; intuition discriminate]
        |split; [reflexivity | cbn; intuition discriminate]]);
      (destruct (mem (lit "png") ERD_FORMATS);
       [destruct sh as [|[|]];
        [|split; [reflexivity | cbn; intuition discriminate]
         |split; [reflexivity | cbn; intuition discriminate]]|]);
      (destruct (mem (lit "pdf") ERD_FORMATS);
       [destruct p as [|[|]];
        [|split; [reflexivity | cbn; intuition discriminate]
         |split; [reflexivity | cbn; intuition discriminate]]|]);
      destruct (mem (lit "svg") ERD_FORMATS);
      try (destruct ev as [|[|]]; try destruct sv as [[|? ?]|];
           try destruct wt as [|[|]]);
      (split; [reflexivity | cbn; intuition discriminate]).
  - intros e ->. destruct e; split; reflexivity.
Qed.

(** X13: a run is not atomic: when the PNG is configured and taken and
    the PDF call then raises, the run returns no results although the
    screenshot call was made and returned; the browser is closed, and
    the failure is logged when what was raised is an [Exception] and not
    when it is another [BaseException]. *)
Theorem render_to_images_partial_failure
        (env : outcomes) (mermaid_content base_name : str) (e : raised) :
  mem (lit "png") ERD_FORMATS = true ->
  mem (lit "pdf") ERD_FORMATS = true ->
  launch env = Returns -> newPage env = Returns ->
  setContent env = Returns -> waitForSelector env = Returns ->
  sleep env = Returns -> querySelector env = Returns ->
  screenshot env = Returns -> pdf env = Raises e ->
  let r := run (render_to_images joinpath ERD_FORMATS
                                 PUPPETEER_EXECUTABLE_PATH output_dir env
                                 mermaid_content base_name) in
  returned (fst r) = None
  /\ snd r
     = [ LoggerInfo Path;
         Launch Path (if truthy PUPPETEER_EXECUTABLE_PATH
                      then PUPPETEER_EXECUTABLE_PATH else None);
         NewPage Path;
         SetContent Path (_create_html mermaid_content);
         WaitForSelector Path (lit "#mermaid-diagram");
         Sleep Path 2;
         QuerySelector Path (lit "#mermaid-diagram");
         Screenshot (joinpath output_dir (base_name ++ lit ".png"));
         LoggerInfo Path;
         Pdf (joinpath output_dir (base_name ++ lit ".pdf")) ]
       ++ match e with
          | AnException => [LoggerError Path]
          | OtherBaseException => []
          end
       ++ [Close Path].
Proof.
  destruct env as [l n sc w sl q sh p ev sv wt cl]. simpl.
  intros Hpng Hpdf -> -> -> -> -> -> -> ->.
  render_steps. rewrite Hpng, Hpdf.
  destruct e, cl as [|[|]]; split; reflexivity.
Qed.

End RenderingFacts.

(** ** Loading the Metadata *)

Section LoaderFacts.
Import Loader.

Lemma load_columns_spec (records : list col_data) :
  forall (acc columns : list Column.t),
    load_columns records acc = Some columns
    <-> exists loaded,
        columns = acc ++ loaded
        /\ Forall2 (fun record column => load_column record = Some column)
                   records loaded.
Proof.
  induction records as [|r records IH]; intros acc columns; simpl.
  - split.
    + intros [= <-]. exists []. rewrite app_nil_r. split; constructor.
    + intros (loaded & -> & H). inversion H. now rewrite app_nil_r.
  - destruct (load_column r) as [c|] eqn:E.
    + rewrite IH. split.
      * intros (loaded & -> & H). exists (c :: loaded).
        rewrite <- app_assoc. split; [reflexivity|]. now constructor.
      * intros (loaded & -> & H).
        inversion H as [|? c' ? loaded' Hc Hrest]; subst.
        assert (c' = c) by congruence. subst c'.
        exists loaded'. rewrite <- app_assoc. auto.
    + split; [discriminate|].
      intros (loaded & _ & H). inversion H; congruence.
Qed.

Lemma load_columns_raises (records : list col_data) :
  forall acc,
    load_columns records acc = None
    <-> exists record, In record records /\ columnName record = None.
Proof.
  induction records as [|r records IH]; intros acc; simpl.
  - split; [discriminate | intros (? & [] & _)].
  - unfold load_column at 1.
    destruct (columnName r) as [name|] eqn:E.
    + rewrite IH. split.
      * intros (record & Hin & Hnone). eauto.
      * intros (record & [<-|Hin] & Hnone); [congruence | eauto].
    + split; [eauto | reflexivity].
Qed.

Lemma load_table_raises (table_name : str) (info : table_info) :
  load_table table_name info = None
  <-> exists record,
      In record (get_default (columns info) [])
      /\ columnName record = None.
Proof.
  unfold load_table. rewrite <- (load_columns_raises _ []).
  destruct (load_columns (get_default (columns info) []) []);
    split; congruence.
Qed.

Lemma load_tables_raises (items : list (str * table_info)) :
  forall tables,
    load_tables items tables = None
    <-> exists table_name info,
        In (table_name, info) items
        /\ load_table table_name info = None.
Proof.
  induction items as [|[n i] items IH]; intros tables; simpl.
  - split; [discriminate | intros (? & ? & [] & _)].
  - destruct (load_table n i) as [t|] eqn:E.
    + rewrite IH. split.
      * intros (n' & i' & Hin & Hnone). eauto.
      * intros (n' & i' & [[= <- <-]|Hin] & Hnone); [congruence | eauto].
    + split; [eauto | reflexivity].
Qed.

(** X14: loading fails with [FileNotFoundError] when there is no file,
    and with [KeyError] exactly when some column record of some table
    has no [columnName]; no Metadata is returned then, not even for the
    tables read before the faulty record. *)
Theorem load_metadata_failures (file_id : str) (raw : raw_data) :
  load_metadata file_id None = FileNotFoundError
  /\ load_metadata file_id (Some raw) <> FileNotFoundError
  /\ (load_metadata file_id (Some raw) = KeyError (lit "columnName")
      <-> exists table_name info record,
          In (table_name, info)
             (get_default (get_default (metadata raw) None) [])
          /\ In record (get_default (columns info) [])
          /\ columnName record = None)
  /\ ((exists m, load_metadata file_id (Some raw) = Loaded m)
      <-> forall table_name info record,
          In (table_name, info)
             (get_default (get_default (metadata raw) None) []) ->
          In record (get_default (columns info) []) ->
          columnName record <> None).
Proof.
  unfold load_metadata.
  set (items := get_default (get_default (metadata raw) None) []).
  assert (Hraise : load_tables items [] = None
                   <-> exists table_name info record,
                       In (table_name, info) items
                       /\ In record (get_default (columns info) [])
                       /\ columnName record = None).
  { rewrite load_tables_raises. split.
    - intros (n & i & Hin & Hnone). apply load_table_raises in Hnone.
      destruct Hnone as (r & Hr & Hname). eauto 6.
    - intros (n & i & r & Hin & Hr & Hname). exists n, i.
      split; [assumption|]. apply load_table_raises. eauto. }
  split; [reflexivity|].
  split; [destruct (load_tables items []); discriminate|].
  split.
  - rewrite <- Hraise. destruct (load_tables items []);
      split; congruence.
  - split.
    + intros (m & Hm) n i r Hin Hr Hname.
      assert (Hn : load_tables items [] = None) by (apply Hraise; eauto 6).
      rewrite Hn in Hm. discriminate.
    + intros Hall. destruct (load_tables items []) as [tables|];
        [eauto|].
      destruct (proj1 Hraise eq_refl) as (n & i & r & Hin & Hr & Hname).
      exfalso. eapply Hall; eauto.
Qed.

Lemma dict_set_fresh (V : Type) (d : list (str * V)) (key : str) (value : V) :
  ~ In key (List.map fst d) -> dict_set d key value = d ++ [(key, value)].
Proof.
  induction d as [|[k v] d IH]; simpl; intros Hnot; [reflexivity|].
  destruct (eqb key k) eqn:E.
  - apply eqb_eq in E. subst. tauto.
  - rewrite IH by tauto. reflexivity.
Qed.

Lemma load_tables_distinct (items : list (str * table_info)) :
  forall acc tables,
    NoDup (List.map fst acc ++ List.map fst items) ->
    load_tables items acc = Some tables ->
    exists loaded,
      tables = acc ++ loaded
      /\ Forall2 (fun item entry =>
                    fst entry = fst item
                    /\ load_table (fst item) (snd item) = Some (snd entry))
                 items loaded.
Proof.
  induction items as [|[n i] items IH]; intros acc tables Hnd; simpl.
  - intros [= <-]. exists []. rewrite app_nil_r. split; constructor.
  - destruct (load_table n i) as [t|] eqn:E; [|discriminate].
    simpl in Hnd.
    assert (Hfresh : ~ In n (List.map fst acc)).
    { apply NoDup_remove_2 in Hnd. intros H. apply Hnd.
      apply in_or_app. now left. }
    rewrite dict_set_fresh by assumption.
    intros H. apply IH in H.
    + destruct H as (loaded & -> & Hall).
      exists ((n, t) :: loaded). rewrite <- app_assoc.
      split; [reflexivity|]. constructor; [simpl; auto | assumption].
    + rewrite map_app. simpl. rewrite <- app_assoc. exact Hnd.
Qed.

(** X15: when the table names are pairwise distinct, as the keys of an
    object are, a successful load keeps the file identifier and gives
    one table per item, in the order of the file and under the item's
    name, with the item's description and one column per column record,
    in the order of the records. *)
Theorem load_metadata_keeps_order
        (file_id : str) (raw : raw_data) (m : Metadata.t) :
  NoDup (List.map fst (get_default (get_default (metadata raw) None) [])) ->
  load_metadata file_id (Some raw) = Loaded m ->
  Metadata.file_id m = file_id
  /\ Forall2
       (fun item entry =>
          fst entry = fst item
          /\ Table.name (snd entry) = fst item
          /\ Table.description (snd entry) = description (snd item)
          /\ Forall2 (fun record column => load_column record = Some column)
                     (get_default (columns (snd item)) [])
                     (Table.columns (snd entry)))
       (get_default (get_default (metadata raw) None) [])
       (Metadata.tables m).
Proof.
  unfold load_metadata.
  set (items := get_default (get_default (metadata raw) None) []).
  intros Hnd.
  destruct (load_tables items []) as [tables|] eqn:E; [|discriminate].
  intros [= <-]. split; [reflexivity|]. simpl.
  apply load_tables_distinct in E; [|exact Hnd].
  destruct E as (loaded & -> & Hall). simpl.
  clear Hnd. induction Hall as [|[n i] [n' t] items' loaded' [Hn Ht] _ IH];
    constructor; [|assumption].
  simpl in *. subst n'. unfold load_table in Ht.
  destruct (load_columns (get_default (columns i) []) []) as [cols|] eqn:Ec;
    [|discriminate].
  injection Ht as <-. simpl.
  apply load_columns_spec in Ec. destruct Ec as (l & -> & Hl). auto.
Qed.

End LoaderFacts.

Section LoaderRuns.
Import Loader.
#[local] Existing Instance CPython.unicode.

Lemma load_metadata_keeps_order_witness :
  exists m,
    load_metadata (lit "f1") (Some LoaderExamples.shop_file) = Loaded m
    /\ Metadata.file_id m = lit "f1"
    /\ List.map fst (Metadata.tables m) = [lit "customers"; lit "orders"].
Proof.
  eexists. split; [reflexivity|]. split; [|reflexivity].
  apply (@load_metadata_keeps_order (lit "f1") LoaderExamples.shop_file).
  - simpl. repeat constructor; simpl; intuition discriminate.
  - reflexivity.
Defined.

Lemma load_metadata_failures_witness :
  load_metadata (lit "f1") (Some LoaderExamples.faulty_file)
  = KeyError (lit "columnName").
Proof.
  apply (proj1 (proj2 (proj2 (load_metadata_failures
                                (lit "f1") LoaderExamples.faulty_file)))).
  eexists (lit "orders"), _, _. split; [|split].
  - simpl. right. left. reflexivity.
  - simpl. right. left. reflexivity.
  - reflexivity.
Defined.

End LoaderRuns.

Section LoadAndGenerate.
Context {U : Unicode}.
Import Loader.

(** X16: a file without the [metadata] key, without the [tables] key in
    it, or with no table is not an error: the Metadata loaded has no
    table, and the diagram source made from it is the header alone. *)
Theorem load_metadata_without_tables (file_id : str) (raw : raw_data) :
  metadata raw = None \/ metadata raw = Some None
  \/ metadata raw = Some (Some []) ->
  load_metadata file_id (Some raw) = Loaded (Metadata.mk file_id [])
  /\ PhysicalERDGenerator.generate_mermaid (Metadata.mk file_id [])
     = lit "erDiagram" ++ nl ++ nl.
Proof.
  unfold load_metadata. intros [H|[H|H]]; rewrite H; split; reflexivity.
Qed.

(** X17: a column record that has a name and nothing else is loaded as a
    nullable VARCHAR column without keys, so its DDL definition is the
    sanitized name and [VARCHAR(255)], and its ERD line [VARCHAR_255]
    and the ERD name, with no marker and no tags; this holds wherever
    upper-casing leaves [VARCHAR] as it is. *)
Theorem bare_column_record_defaults (record : col_data) (name : str) :
  upper (lit "VARCHAR") = lit "VARCHAR" ->
  columnName record = Some name ->
  dataType record = None ->
  isPrimaryKey record = None -> isForeignKey record = None ->
  nullable record = None -> isUnique record = None ->
  defaultValue record = None ->
  exists column,
    load_column record = Some column
    /\ MySQLGenerator._generate_column_definition column
       = MySQLGenerator._sanitize_name name ++ lit " VARCHAR(255)"
    /\ PhysicalERDGenerator._generate_column_line column
       = lit "VARCHAR_255 " ++ PhysicalERDGenerator._sanitize_name name.
Proof.
  intros Hup Hname Htype Hpk Hfk Hnull Huniq Hdef.
  unfold load_column. rewrite Hname, Htype, Hpk, Hfk, Hnull, Huniq, Hdef.
  eexists. split; [reflexivity|].
  assert (Hmap : TypeMapper.map_to_mysql_type (lit "VARCHAR")
                 = lit "VARCHAR(255)").
  { unfold TypeMapper.map_to_mysql_type. rewrite Hup. reflexivity. }
  split.
  - rewrite _generate_column_definition_text. simpl.
    unfold MySQLGenerator.map_type. rewrite Hmap.
    now rewrite app_nil_r.
  - unfold PhysicalERDGenerator._generate_column_line,
      PhysicalERDGenerator.mysql_type_clean,
      PhysicalERDGenerator._column_constraints.
    simpl. rewrite Hmap. simpl. now rewrite app_nil_r.
Qed.

End LoadAndGenerate.

Section LoadAndGenerateRuns.
Import Loader.
#[local] Existing Instance CPython.unicode.

Lemma load_metadata_without_tables_witness :
  load_metadata (lit "f1") (Some (Build_raw_data None))
  = Loaded (Metadata.mk (lit "f1") []).
Proof.
  apply (load_metadata_without_tables (lit "f1") (Build_raw_data None)).
  left. reflexivity.
Defined.

Lemma bare_column_record_defaults_witness :
  exists column,
    load_column (LoaderExamples.bare_record "unit price") = Some column
    /\ MySQLGenerator._generate_column_definition column
       = lit "unit_price VARCHAR(255)"
    /\ PhysicalERDGenerator._generate_column_line column
       = lit "VARCHAR_255 UNIT_PRICE".
Proof.
  assert (Hup : upper (lit "VARCHAR") = lit "VARCHAR") by reflexivity.
  destruct (@bare_column_record_defaults
              _ (LoaderExamples.bare_record "unit price") (lit "unit price")
              Hup eq_refl eq_refl eq_refl eq_refl eq_refl eq_refl eq_refl)
    as (column & H1 & H2 & H3).
  exists column. split; [exact H1|]. split.
  - rewrite H2. reflexivity.
  - rewrite H3. reflexivity.
Defined.

End LoadAndGenerateRuns.

(** ** Empty strings in optional fields *)

Section EmptyStrings.
Context {U : Unicode}.
Import Optional.

Lemma truthy_nonempty (o : option str) : truthy (nonempty o) = truthy o.
Proof. destruct o as [[|c s]|]; reflexivity. Qed.

Lemma get_nonempty (o : option str) : get (nonempty o) = get o.
Proof. destruct o as [[|c s]|]; reflexivity. Qed.

Lemma filter_map_flag (A : Type) (f : A -> A) (p : A -> bool) (l : list A) :
  (forall a, p (f a) = p a) ->
  filter p (List.map f l) = List.map f (filter p l).
Proof.
  intros H. induction l as [|a l IH]; [reflexivity|].
  simpl. rewrite H. destruct (p a); simpl; now rewrite IH.
Qed.

Lemma enumerate_map (A B : Type) (f : A -> B) (l : list A) :
  forall start,
    enumerate start (List.map f l)
    = List.map (fun p => (fst p, f (snd p))) (enumerate start l).
Proof.
  induction l as [|a l IH]; intros start; [reflexivity|].
  simpl. now rewrite IH.
Qed.

Lemma column_definition_without_empty_strings (c : Column.t) :
  MySQLGenerator._generate_column_definition (without_empty_strings c)
  = MySQLGenerator._generate_column_definition c.
Proof.
  unfold MySQLGenerator._generate_column_definition,
    MySQLGenerator._column_definition_parts. simpl.
  now rewrite truthy_nonempty, get_nonempty.
Qed.

Lemma column_line_without_empty_strings (c : Column.t) :
  PhysicalERDGenerator._generate_column_line (without_empty_strings c)
  = PhysicalERDGenerator._generate_column_line c.
Proof.
  unfold PhysicalERDGenerator._generate_column_line,
    PhysicalERDGenerator._column_constraints,
    PhysicalERDGenerator.mysql_type_clean. simpl.
  now rewrite truthy_nonempty, get_nonempty.
Qed.

(** X18: an empty string as default value, referenced table or
    referenced column is read as an absent one: putting [None] in its
    place changes none of the CREATE TABLE statement, the foreign-key
    statements, the index statements, the entity block and the
    relationship lines of a table. *)
Theorem empty_strings_read_as_absent (table : Table.t) :
  let table' := table_without_empty_strings table in
  MySQLGenerator._generate_create_table table'
  = MySQLGenerator._generate_create_table table
  /\ MySQLGenerator._generate_foreign_keys table'
     = MySQLGenerator._generate_foreign_keys table
  /\ MySQLGenerator._generate_indexes table'
     = MySQLGenerator._generate_indexes table
  /\ PhysicalERDGenerator._generate_entity table'
     = PhysicalERDGenerator._generate_entity table
  /\ PhysicalERDGenerator._generate_relationships table'
     = PhysicalERDGenerator._generate_relationships table.
Proof.
  intros table'.
  assert (Hpk : Table.primary_keys table'
                = List.map without_empty_strings (Table.primary_keys table))
    by (apply filter_map_flag; reflexivity).
  assert (Hfk : Table.foreign_keys table'
                = List.map without_empty_strings (Table.foreign_keys table))
    by (apply filter_map_flag; reflexivity).
  split; [|split; [|split; [|split]]].
  - rewrite !_generate_create_table_text, !_create_table_col_defs_closed.
    rewrite Hpk. simpl Table.columns. simpl Table.name.
    rewrite !map_map.
    rewrite (map_ext _ _ (fun c => f_equal (fun line => lit "    " ++ line)
                                     (column_definition_without_empty_strings
                                        c))).
    destruct (Table.primary_keys table); reflexivity.
  - rewrite !_generate_foreign_keys_emitted.
    unfold MySQLGenerator.fk_emitted. rewrite Hfk, enumerate_map.
    rewrite (filter_map_flag
               (fun p => (fst p, without_empty_strings (snd p)))
               (fun p => MySQLGenerator.fk_complete (snd p))).
    + rewrite map_map. apply map_ext. intros [idx c].
      unfold MySQLGenerator.fk_stmt, MySQLGenerator.fk_name. simpl.
      now rewrite !get_nonempty.
    + intros [idx c]. unfold MySQLGenerator.fk_complete. simpl.
      now rewrite !truthy_nonempty.
  - rewrite !_generate_indexes_map, Hfk, map_map. reflexivity.
  - rewrite !_generate_entity_text. simpl Table.columns. simpl Table.name.
    rewrite map_map.
    rewrite (map_ext _ _ (fun c => f_equal (fun line => lit "        "
                                                        ++ line ++ nl)
                                     (column_line_without_empty_strings c))).
    reflexivity.
  - rewrite !_generate_relationships_text.
    unfold PhysicalERDGenerator.relationship_columns. rewrite Hfk.
    rewrite (filter_map_flag without_empty_strings
               (fun c => truthy (Column.references_table c)));
      [|intros c; simpl; apply truthy_nonempty].
    rewrite map_map. f_equal. apply map_ext. intros c.
    unfold PhysicalERDGenerator.relationship_line. simpl.
    now rewrite get_nonempty.
Qed.

End EmptyStrings.

(** ** What the generators read *)

Section BareFacts.
Context {U : Unicode}.

(** X19: the texts generated depend on nothing but the names of the
    tables and, column by column in order, the name, type, flags,
    default value and reference: taking away the file identifier, the
    keys the tables are stored under and every description changes none
    of a table's CREATE TABLE statement, foreign-key statements, index
    statements, entity block and relationship lines, nor the diagram
    source. *)
Theorem generators_read_names_and_columns (metadata : Metadata.t) :
  (forall table,
      MySQLGenerator._generate_create_table (Bare.table table)
      = MySQLGenerator._generate_create_table table
      /\ MySQLGenerator._generate_foreign_keys (Bare.table table)
         = MySQLGenerator._generate_foreign_keys table
      /\ MySQLGenerator._generate_indexes (Bare.table table)
         = MySQLGenerator._generate_indexes table
      /\ PhysicalERDGenerator._generate_entity (Bare.table table)
         = PhysicalERDGenerator._generate_entity table
      /\ PhysicalERDGenerator._generate_relationships (Bare.table table)
         = PhysicalERDGenerator._generate_relationships table)
  /\ PhysicalERDGenerator.generate_mermaid (Bare.metadata metadata)
     = PhysicalERDGenerator.generate_mermaid metadata.
Proof.
  assert (tables : forall table,
             MySQLGenerator._generate_create_table (Bare.table table)
             = MySQLGenerator._generate_create_table table
             /\ MySQLGenerator._generate_foreign_keys (Bare.table table)
                = MySQLGenerator._generate_foreign_keys table
             /\ MySQLGenerator._generate_indexes (Bare.table table)
                = MySQLGenerator._generate_indexes table
             /\ PhysicalERDGenerator._generate_entity (Bare.table table)
                = PhysicalERDGenerator._generate_entity table
             /\ PhysicalERDGenerator._generate_relationships
                  (Bare.table table)
                = PhysicalERDGenerator._generate_relationships table).
  { intros table.
    assert (Hpk : Table.primary_keys (Bare.table table)
                  = List.map Bare.column (Table.primary_keys table))
      by (apply filter_map_flag; reflexivity).
    assert (Hfk : Table.foreign_keys (Bare.table table)
                  = List.map Bare.column (Table.foreign_keys table))
      by (apply filter_map_flag; reflexivity).
    split; [|split; [|split; [|split]]].
    - rewrite !_generate_create_table_text, !_create_table_col_defs_closed.
      rewrite Hpk. simpl Table.columns. simpl Table.name.
      rewrite !map_map.
      destruct (Table.primary_keys table); reflexivity.
    - rewrite !_generate_foreign_keys_emitted.
      unfold MySQLGenerator.fk_emitted. rewrite Hfk, enumerate_map.
      rewrite (filter_map_flag
                 (fun p => (fst p, Bare.column (snd p)))
                 (fun p => MySQLGenerator.fk_complete (snd p)));
        [|intros [idx c]; reflexivity].
      rewrite map_map. apply map_ext. intros [idx c]. reflexivity.
    - rewrite !_generate_indexes_map, Hfk, map_map. reflexivity.
    - rewrite !_generate_entity_text. simpl Table.columns.
      rewrite map_map. reflexivity.
    - rewrite !_generate_relationships_text.
      unfold PhysicalERDGenerator.relationship_columns. rewrite Hfk.
      rewrite (filter_map_flag Bare.column
                 (fun c => truthy (Column.references_table c)));
        [|reflexivity].
      rewrite map_map. reflexivity. }
  split; [exact tables|].
  rewrite !generate_mermaid_text.
  unfold PhysicalERDGenerator.relationship_lines, Bare.metadata.
  simpl Metadata.tables. rewrite !map_map. simpl snd.
  rewrite <- !relationship_lines_concat, !map_map.
  do 3 f_equal.
  f_equal.
  - f_equal. apply map_ext. intros item. apply tables.
  - f_equal. apply map_ext. intros item. apply tables.
Qed.

End BareFacts.

(** ** Runs of the renderer *)

Section RenderingRuns.
Import MermaidRenderer.

Lemma render_to_images_partial_failure_witness :
  returned
    (fst (run (render_to_images
                 (fun (dir : list str) name => dir ++ [name])
                 (Config.ERD_FORMATS None) None [lit "artifacts"]
                 (Build_outcomes Returns Returns Returns Returns Returns
                                 Returns Returns (Raises OtherBaseException)
                                 Returns (Some (lit "<svg/>")) Returns
                                 Returns)
                 (lit "erDiagram") (lit "erd_mysql"))))
  = None.
Proof.
  apply (@render_to_images_partial_failure
           (list str) (fun dir name => dir ++ [name])
           (Config.ERD_FORMATS None) None [lit "artifacts"]
           (Build_outcomes Returns Returns Returns Returns Returns
                           Returns Returns (Raises OtherBaseException)
                           Returns (Some (lit "<svg/>")) Returns Returns)
           (lit "erDiagram") (lit "erd_mysql") OtherBaseException);
    reflexivity.
Defined.

Lemma render_to_images_closes_browser_witness :
  last (snd (run (render_to_images
                    (fun (dir : list str) name => dir ++ [name])
                    (Config.ERD_FORMATS None) None [lit "artifacts"]
                    (Build_outcomes Returns Returns (Raises AnException)
                                    Returns Returns Returns Returns Returns
                                    Returns None Returns Returns)
                    (lit "erDiagram") (lit "erd_mysql"))))
       (LoggerInfo (list str))
  = Close (list str).
Proof.
  apply (@render_to_images_closes_browser
           (list str) (fun dir name => dir ++ [name])
           (Config.ERD_FORMATS None) None [lit "artifacts"]
           (Build_outcomes Returns Returns (Raises AnException)
                           Returns Returns Returns Returns Returns
                           Returns None Returns Returns)).
  reflexivity.
Defined.

Example render_to_images_default_formats :
  fst (run (render_to_images
              (fun (dir : list str) name => dir ++ [name])
              (Config.ERD_FORMATS None) None [lit "artifacts"]
              (Build_outcomes Returns Returns Returns Returns Returns
                              Returns Returns Returns Returns
                              (Some (lit "<svg/>")) Returns Returns)
              (lit "erDiagram") (lit "erd_mysql")))
  = Return [ (lit "png", [lit "artifacts"; lit "erd_mysql.png"]);
             (lit "pdf", [lit "artifacts"; lit "erd_mysql.pdf"]);
             (lit "svg", [lit "artifacts"; lit "erd_mysql.svg"]) ].
Proof. reflexivity. Qed.

Example render_to_images_blank_in_formats :
  fst (run (render_to_images
              (fun (dir : list str) name => dir ++ [name])
              (Config.ERD_FORMATS (Some (lit "png, svg"))) None
              [lit "artifacts"]
              (Build_outcomes Returns Returns Returns Returns Returns
                              Returns Returns Returns Returns
                              (Some (lit "<svg/>")) Returns Returns)
              (lit "erDiagram") (lit "erd_mysql")))
  = Return [ (lit "png", [lit "artifacts"; lit "erd_mysql.png"]) ].
Proof. reflexivity. Qed.

(** A cancelled sleep: nothing is logged, the browser is closed. *)
Example render_to_images_cancelled :
  run (render_to_images
         (fun (dir : list str) name => dir ++ [name])
         (Config.ERD_FORMATS None) None [lit "artifacts"]
         (Build_outcomes Returns Returns Returns Returns
                         (Raises OtherBaseException)
                         Returns Returns Returns Returns
                         (Some (lit "<svg/>")) Returns Returns)
         (lit "erDiagram") (lit "erd_mysql"))
  = (Raise OtherBaseException,
     [ LoggerInfo (list str);
       Launch (list str) None;
       NewPage (list str);
       SetContent (list str) (_create_html (lit "erDiagram"));
       WaitForSelector (list str) (lit "#mermaid-diagram");
       Sleep (list str) 2;
       Close (list str) ]).
Proof. reflexivity. Qed.

End RenderingRuns.
